(** * EmoHarmony: the PDF report generator (utils/exportPDF)

    A shallow embedding of [exportResultAsPDF] and of its section helpers.
    The jsPDF document is a record holding the page count, the active page
    and the chronological list of drawing calls made on it; every helper
    is a computation in a state-and-exception monad over that record.

    Numbers of the analysis record reach the page as JSON, hence are
    finite; they are modelled as exact rationals ([Q]), without the
    rounding of IEEE doubles. *)

From Stdlib Require Import ZArith QArith Qround Qabs String Ascii List Bool Lia.
From Stdlib Require Import Sorted Permutation DecimalString Lqa.
From Stdlib Require DecimalZ DecimalPos.
Import ListNotations.

Local Open Scope string_scope.
Local Open Scope Q_scope.

(** ** JavaScript runtime pieces used by the module *)

Module JS.

(** Decimal rendering of an integer ([String(n)] on an integral number). *)
Definition stringOfZ (z : Z) : string :=
  NilZero.string_of_int (Z.to_int z).

Definition stringOfNat (n : nat) : string :=
  NilZero.string_of_uint (Nat.to_uint n).

Fixpoint repeat0 (n : nat) : string :=
  match n with
  | O => ""
  | S k => String "0" (repeat0 k)
  end.

(** [s.padStart(n, "0")]. *)
Definition padStart0 (n : nat) (s : string) : string :=
  repeat0 (n - String.length s) ++ s.

Definition pow10 (f : nat) : Z := Z.pow 10 (Z.of_nat f).

(** [Math.round]: the nearest integer, ties towards +infinity. *)
Definition Math_round (x : Q) : Z := Qfloor (x + (1 # 2)).

(** [Math.min] on finite numbers. *)
Definition Math_min (a b : Q) : Q := if Qle_bool a b then a else b.

(** [Number.prototype.toFixed(f)] on a finite number (ECMA-262,
    21.1.3.3). From 10^21 on the result is [String(x)], computed by
    [toStr]. Below, the sign is split off, [n] is the integer nearest to
    [|x| * 10^f] (the larger one on a tie), and its decimal digits,
    padded to [f + 1] places, receive the point before the last [f] of
    them. *)
Definition toFixed (toStr : Q -> string) (x : Q) (f : nat) : string :=
  if Qle_bool (inject_Z (pow10 21)) (Qabs x) then toStr x else
  let s := if Qlt_le_dec x 0 then "-" else "" in
  let n := Qfloor (Qabs x * inject_Z (pow10 f) + (1 # 2)) in
  let m := padStart0 (S f) (stringOfZ n) in
  let k := (String.length m - f)%nat in
  if Nat.eqb f 0 then s ++ m
  else s ++ substring 0 k m ++ "." ++ substring k f m.

(** [a > b] on finite numbers. *)
Definition gt (a b : Q) : bool := negb (Qle_bool a b).

(** [Array.prototype.sort(cmp)] on a comparator that is a consistent
    ordering: the sort is stable (ECMA-262 since ES2019), so its result
    is the one of a stable insertion. An element moves behind another
    only when [cmp] of the two is positive. *)
Section Sort.
Context {A : Type} (cmp : A -> A -> Q).

Fixpoint insert (x : A) (l : list A) : list A :=
  match l with
  | [] => [x]
  | y :: t => if gt (cmp x y) 0 then y :: insert x t else x :: y :: t
  end.

Definition sort (l : list A) : list A := fold_right insert [] l.
End Sort.

(** The properties every ordinary object inherits from
    [Object.prototype] (ECMA-262, 20.1.3 and Annex B.2.2). *)
Definition objectPrototypeKeys : list string :=
  [ "constructor"; "hasOwnProperty"; "isPrototypeOf";
    "propertyIsEnumerable"; "toLocaleString"; "toString"; "valueOf";
    "__proto__"; "__defineGetter__"; "__defineSetter__";
    "__lookupGetter__"; "__lookupSetter__" ].

Definition inb (k : string) (l : list string) : bool :=
  existsb (String.eqb k) l.

(** The value of [obj[key]] for an object literal [obj]: an own
    property, a member inherited from [Object.prototype], or
    [undefined]. *)
Inductive member (A : Type) : Type :=
| Own (a : A)
| Inherited (name : string)
| Undefined.
Arguments Own {A} a.
Arguments Inherited {A} name.
Arguments Undefined {A}.

Fixpoint assoc {A : Type} (key : string) (obj : list (string * A)) : option A :=
  match obj with
  | [] => None
  | (k, v) :: rest => if String.eqb key k then Some v else assoc key rest
  end.

Definition get {A : Type} (obj : list (string * A)) (key : string) : member A :=
  match assoc key obj with
  | Some v => Own v
  | None => if inb key objectPrototypeKeys then Inherited key else Undefined
  end.

(** [obj[key] || fallback] where every own value is truthy (arrays and
    non-empty strings): what is left is a table value or an inherited
    member, both truthy. *)
Inductive found (A : Type) : Type :=
| Val (a : A)
| Proto (name : string).
Arguments Val {A} a.
Arguments Proto {A} name.

Definition orElse {A : Type} (m : member A) (fallback : A) : found A :=
  match m with
  | Own a => Val a
  | Inherited n => Proto n
  | Undefined => Val fallback
  end.

(** [String(m)] of an inherited member: the accessor [__proto__] yields
    [Object.prototype] itself, the others are native functions, printed
    the way V8 and JavaScriptCore print them. *)
Definition protoToString (name : string) : string :=
  if String.eqb name "__proto__" then "[object Object]"
  else "function "
       ++ (if String.eqb name "constructor" then "Object" else name)
       ++ "() { [native code] }".

End JS.


(** ** The analysis record and the argument of the export *)

(** A JSON scalar, as found among the values of [bandPowers] and
    [ratios]. *)
Inductive scalar : Type :=
| SNull
| SBool (b : bool)
| SNum (q : Q)
| SStr (s : string).

(** The fields [exportResultAsPDF] reads from [result]. [None] is a field
    that is [undefined] or [null]; an object field lists its own
    properties in enumeration order. *)
Record ReportRecord : Type := {
  _id : option string;
  datasetName : option string;
  modelUsed : option string;
  processingTime : option Q;
  createdAt : option string;
  emotion : option string;
  confidence : option Q;
  bandPowers : option (list (string * scalar));
  emotionScores : option (list (string * Q));
  interpretation : option string;
  ratios : option (list (string * scalar))
}.

(** What a caller may pass as [result]. *)
Inductive value : Type :=
| VUndefined
| VNull
| VBoolean (b : bool)
| VNaN
| VNumber (q : Q)
| VString (s : string)
| VObject (r : ReportRecord).

Definition noFields : ReportRecord :=
  {| _id := None; datasetName := None; modelUsed := None;
     processingTime := None; createdAt := None; emotion := None;
     confidence := None; bandPowers := None; emotionScores := None;
     interpretation := None; ratios := None |}.

Definition nonEmpty (s : string) : bool :=
  match s with EmptyString => false | _ => true end.

(** [ToBoolean]. *)
Definition truthy (v : value) : bool :=
  match v with
  | VUndefined | VNull | VNaN => false
  | VBoolean b => b
  | VNumber q => negb (Qeq_bool q 0)
  | VString s => nonEmpty s
  | VObject _ => true
  end.

(** Property reads on the argument: a primitive has none of the fields. *)
Definition fields (v : value) : ReportRecord :=
  match v with
  | VObject r => r
  | _ => noFields
  end.

(** [s || d] for an optional string. *)
Definition orString (s : option string) (d : string) : string :=
  match s with
  | Some x => if nonEmpty x then x else d
  | None => d
  end.

(** [ToPropertyKey] of an optional string field. *)
Definition propertyKey (s : option string) : string :=
  match s with
  | Some x => x
  | None => "undefined"
  end.

(** ** The jsPDF document *)

Inductive align : Type := AlignLeft | AlignCenter | AlignRight.

(** The jsPDF calls the module makes. Shapes are always filled (style
    ["F"]); [text] takes the lines it writes. *)
Inductive call : Type :=
| setFillColor (r g b : Z)
| setDrawColor (r g b : Z)
| setTextColor (r g b : Z)
| setLineWidth (w : Q)
| setFont (family style : string)
| setFontSize (size : Q)
| rect (x y w h : Q)
| roundedRect (x y w h rx ry : Q)
| line (x1 y1 x2 y2 : Q)
| text (lines : list string) (x y : Q) (a : align).

(** A document: its page count, the page that receives the calls, and the
    calls made so far, oldest first, each with the page it went to. *)
Record Doc : Type := {
  numberOfPages : nat;
  currentPage : nat;
  drawn : list (nat * call)
}.

(** [new jsPDF(...)]: one empty page, which is the active one. Only
    [addPage] adds another, and the module never calls it. *)
Definition jsPDF_new : Doc :=
  {| numberOfPages := 1; currentPage := 1; drawn := [] |}.

(** What the module takes from its environment: jsPDF's page geometry and
    line splitting, the number and date formatting of the host, and the
    two clock readings ([new Date()] in the header, [Date.now()] for the
    file name). *)
Record Runtime : Type := {
  pageWidth : Q;
  pageHeight : Q;
  splitTextToSize : string -> Q -> list string;
  numberToString : Q -> string;
  dateToLocaleString_enIN : string -> string;
  toLocaleString : Z -> string;
  clockAtHeader : Z;
  clockAtSave : Z
}.

(** ** Exceptions and the monad of the helpers *)

Inductive exn : Type := TypeError (what : string).

Inductive result (A : Type) : Type :=
| Ok (a : A)
| Throw (e : exn).
Arguments Ok {A} a.
Arguments Throw {A} e.

Definition M (A : Type) : Type := Doc -> result (A * Doc).

Definition ret {A : Type} (a : A) : M A := fun d => Ok (a, d).

Definition bind {A B : Type} (m : M A) (k : A -> M B) : M B :=
  fun d => match m d with
           | Ok (a, d') => k a d'
           | Throw e => Throw e
           end.

Definition throw {A : Type} (e : exn) : M A := fun _ => Throw e.

Declare Scope pdf_scope.
Delimit Scope pdf_scope with pdf.
Notation "x <- m ;; k" := (bind m (fun x => k))
  (at level 61, m at next level, right associativity) : pdf_scope.
Notation "m ;; k" := (bind m (fun _ => k))
  (at level 61, right associativity) : pdf_scope.
Local Open Scope pdf_scope.

Definition push (d : Doc) (c : call) : Doc :=
  {| numberOfPages := numberOfPages d;
     currentPage := currentPage d;
     drawn := drawn d ++ [(currentPage d, c)] |}.

(** A drawing or state call on the document. *)
Definition emit (c : call) : M unit := fun d => Ok (tt, push d c).

(** [doc.setPage(p)]. *)
Definition setPage (p : nat) : M unit :=
  fun d => Ok (tt, {| numberOfPages := numberOfPages d;
                      currentPage := p;
                      drawn := drawn d |}).

(** [doc.internal.getNumberOfPages()]. *)
Definition getNumberOfPages : M nat := fun d => Ok (numberOfPages d, d).

Definition rgb : Type := (Z * Z * Z)%type.

(** Spreading or destructuring a looked-up colour ([...color],
    [([r, g, b])]): an inherited member is not iterable. *)
Definition iterate (c : JS.found rgb) : M rgb :=
  match c with
  | JS.Val t => ret t
  | JS.Proto n => throw (TypeError (n ++ " is not iterable"))
  end.

(** ** Helpers *)

Definition EMOTION_COLORS : list (string * rgb) :=
  [ ("Happy", (245, 158, 11)%Z);
    ("Calm", (16, 185, 129)%Z);
    ("Stress", (139, 92, 246)%Z);
    ("Angry", (239, 68, 68)%Z);
    ("Sad", (59, 130, 246)%Z) ].

(** The colour after [||] in every lookup of the module. *)
Definition fallbackColor : rgb := (99, 102, 241)%Z.

(** [String(v)]. *)
Definition String_ (toStr : Q -> string) (v : scalar) : string :=
  match v with
  | SNull => "null"
  | SBool true => "true"
  | SBool false => "false"
  | SNum q => toStr q
  | SStr s => s
  end.

(** [typeof val === "number" ? val.toFixed(4) : val]. *)
Definition fixed4 (toStr : Q -> string) (v : scalar) : scalar :=
  match v with
  | SNum q => SStr (JS.toFixed toStr q 4)
  | other => other
  end.

Section Report.

Variable rt : Runtime.

Definition formatDate (isoString : string) : string :=
  dateToLocaleString_enIN rt isoString.

(** The [dateStr] of [addHeader]. *)
Definition headerDate (result : ReportRecord) : string :=
  match createdAt result with
  | Some c => if nonEmpty c then formatDate c
              else toLocaleString rt (clockAtHeader rt)
  | None => toLocaleString rt (clockAtHeader rt)
  end.

Definition addHeader (result : ReportRecord) : M Q :=
  let color := JS.orElse (JS.get EMOTION_COLORS (propertyKey (emotion result)))
                         fallbackColor in
  c <- iterate color ;;
  let '(r, g, b) := c in
  let pageW := pageWidth rt in
  emit (setFillColor r g b) ;;
  emit (rect 0 0 pageW 38) ;;
  emit (setFont "helvetica" "bold") ;;
  emit (setFontSize 22) ;;
  emit (setTextColor 255 255 255) ;;
  emit (text ["EmoHarmony"] 14 18 AlignLeft) ;;
  emit (setFont "helvetica" "normal") ;;
  emit (setFontSize 10) ;;
  emit (setTextColor 255 255 255) ;;
  emit (text ["EEG Emotional Analysis Report"] 14 26 AlignLeft) ;;
  emit (setFontSize 8) ;;
  emit (setTextColor 255 255 255) ;;
  let dateStr := headerDate result in
  emit (text [dateStr] (pageW - 14) 26 AlignRight) ;;
  emit (setFillColor 240 240 245) ;;
  emit (rect 0 38 pageW 10) ;;
  emit (setFontSize (15 # 2)) ;;
  emit (setTextColor 100 100 120) ;;
  emit (text ["⚠  This report is generated for research & educational purposes only and does not constitute medical diagnosis."]
             (pageW / 2) (89 # 2) AlignCenter) ;;
  ret 58.

Definition addSectionTitle (title : string) (y : Q) (color : rgb) : M Q :=
  let '(r, g, b) := color in
  emit (setDrawColor r g b) ;;
  emit (setLineWidth (1 # 2)) ;;
  emit (line 14 y (pageWidth rt - 14) y) ;;
  let y := y + 5 in
  emit (setFont "helvetica" "bold") ;;
  emit (setFontSize 11) ;;
  emit (setTextColor r g b) ;;
  emit (text [title] 14 y AlignLeft) ;;
  ret (y + 7).

(** [labelColor] is always left to its default [[100, 100, 120]]. *)
Definition addKVRow (label : string) (value : scalar) (y : Q) : M Q :=
  emit (setFont "helvetica" "normal") ;;
  emit (setFontSize 10) ;;
  emit (setTextColor 100 100 120) ;;
  emit (text [label] 14 y AlignLeft) ;;
  emit (setFont "helvetica" "bold") ;;
  emit (setTextColor 30 30 50) ;;
  emit (text [String_ (numberToString rt) value] 80 y AlignLeft) ;;
  ret (y + 7).

Definition bands : list string := ["delta"; "theta"; "alpha"; "beta"; "gamma"].

Definition bandColors : list (string * rgb) :=
  [ ("delta", (59, 130, 246)%Z);
    ("theta", (139, 92, 246)%Z);
    ("alpha", (16, 185, 129)%Z);
    ("beta", (245, 158, 11)%Z);
    ("gamma", (239, 68, 68)%Z) ].

(** [s.toUpperCase()] on ASCII letters. *)
Definition upcase (c : ascii) : ascii :=
  let n := nat_of_ascii c in
  if (Nat.leb 97 n && Nat.leb n 122)%bool then ascii_of_nat (n - 32) else c.

Fixpoint toUpperCase (s : string) : string :=
  match s with
  | EmptyString => EmptyString
  | String c t => String (upcase c) (toUpperCase t)
  end.

(** [bandPowers?.[band] ?? 0]. *)
Definition bandValue (bandPowers : option (list (string * scalar)))
                     (band : string) : scalar :=
  match bandPowers with
  | None => SNum 0
  | Some o =>
      match JS.assoc band o with
      | Some SNull | None => SNum 0
      | Some v => v
      end
  end.

(** [typeof val === "number" ? val.toFixed(4) : String(val)]. *)
Definition bandText (val : scalar) : string :=
  match val with
  | SNum q => JS.toFixed (numberToString rt) q 4
  | other => String_ (numberToString rt) other
  end.

(** The callback of [bands.forEach] in [addBandPowerTable]. *)
Definition bandCell (bandPowers : option (list (string * scalar)))
                    (y cellW : Q) (band : string) (i : nat) : M unit :=
  let x := 14 + inject_Z (Z.of_nat i) * cellW in
  let color := JS.orElse (JS.get bandColors band) fallbackColor in
  let val := bandValue bandPowers band in
  c <- iterate color ;;
  let '(r, g, b) := c in
  emit (setFillColor r g b) ;;
  emit (roundedRect x y (cellW - 2) 8 2 2) ;;
  emit (setFont "helvetica" "bold") ;;
  emit (setFontSize 8) ;;
  emit (setTextColor 255 255 255) ;;
  emit (text [toUpperCase band] (x + (cellW - 2) / 2) (y + (11 # 2)) AlignCenter) ;;
  emit (setFont "helvetica" "normal") ;;
  emit (setFontSize 9) ;;
  emit (setTextColor 30 30 50) ;;
  emit (text [bandText val] (x + (cellW - 2) / 2) (y + 16) AlignCenter).

(** [array.forEach((x, i) => f x i)], from index [i] on. *)
Fixpoint forEachIndexed {A : Type} (f : A -> nat -> M unit)
                        (l : list A) (i : nat) : M unit :=
  match l with
  | [] => ret tt
  | x :: t => f x i ;; forEachIndexed f t (S i)
  end.

Definition addBandPowerTable (bandPowers : option (list (string * scalar)))
                             (y : Q) : M Q :=
  let pageW := pageWidth rt in
  let cellW := (pageW - 28) / inject_Z (Z.of_nat (List.length bands)) in
  forEachIndexed (bandCell bandPowers y cellW) bands 0 ;;
  ret (y + 22).

(** The [pct] and [barW] of [addEmotionScoreBar]. *)
Definition pctOf (score : Q) : Q := JS.Math_min (score * 100) 100.
Definition barWOf (score maxW : Q) : Q := (pctOf score / 100) * maxW.

Definition addEmotionScoreBar (emotion : string) (score y maxW : Q) : M Q :=
  let color := JS.orElse (JS.get EMOTION_COLORS emotion) fallbackColor in
  let pct := pctOf score in
  let barW := barWOf score maxW in
  emit (setFont "helvetica" "normal") ;;
  emit (setFontSize 9) ;;
  emit (setTextColor 60 60 80) ;;
  emit (text [emotion] 14 (y + 4) AlignLeft) ;;
  emit (setFillColor 230 230 240) ;;
  emit (roundedRect 55 y maxW 5 1 1) ;;
  (if JS.gt barW 0
   then c <- iterate color ;;
        let '(r, g, b) := c in
        emit (setFillColor r g b) ;;
        emit (roundedRect 55 y barW 5 1 1)
   else ret tt) ;;
  emit (setFont "helvetica" "bold") ;;
  emit (setFontSize 9) ;;
  emit (setTextColor 30 30 50) ;;
  let pageW := pageWidth rt in
  emit (text [JS.toFixed (numberToString rt) pct 1 ++ "%"] (pageW - 14) (y + 4) AlignRight) ;;
  ret (y + 9).

Definition wrapText (txt : string) (x y maxWidth lineHeight : Q) : M Q :=
  let lines := splitTextToSize rt txt maxWidth in
  emit (text lines x y AlignLeft) ;;
  ret (y + inject_Z (Z.of_nat (List.length lines)) * lineHeight).

(** *** The sections of [exportResultAsPDF] *)

Definition titleColor : rgb := (50, 50, 80)%Z.

(** [result.createdAt ? formatDate(result.createdAt) : "N/A"]. *)
Definition analysisDate (result : ReportRecord) : string :=
  match createdAt result with
  | Some c => if nonEmpty c then formatDate c else "N/A"
  | None => "N/A"
  end.

(** [`${result.processingTime ?? "—"} ms`]. *)
Definition processingTimeText (result : ReportRecord) : string :=
  match processingTime result with
  | Some q => numberToString rt q
  | None => "—"
  end ++ " ms".

(** 1. Session Info *)
Definition sessionInfo (result : ReportRecord) (y : Q) : M Q :=
  y <- addSectionTitle "Session Information" y titleColor ;;
  y <- addKVRow "Report ID:" (SStr (orString (_id result) "N/A")) y ;;
  y <- addKVRow "Dataset Name:" (SStr (orString (datasetName result) "Unknown")) y ;;
  y <- addKVRow "Model Used:" (SStr (orString (modelUsed result) "N/A")) y ;;
  y <- addKVRow "Processing Time:" (SStr (processingTimeText result)) y ;;
  y <- addKVRow "Analysis Date:" (SStr (analysisDate result)) y ;;
  ret (y + 4).

(** [EMOTION_COLORS[result.emotion] || [99, 102, 241]]. *)
Definition emotionColor (result : ReportRecord) : JS.found rgb :=
  JS.orElse (JS.get EMOTION_COLORS (propertyKey (emotion result))) fallbackColor.

(** [Math.round((result.confidence ?? 0) * 100)]. *)
Definition confPct (result : ReportRecord) : Z :=
  JS.Math_round (match confidence result with Some c => c | None => 0 end * 100).

(** 2. Primary Emotion *)
Definition primaryEmotion (result : ReportRecord) (y : Q) : M Q :=
  y <- addSectionTitle "Primary Emotion Detected" y titleColor ;;
  c <- iterate (emotionColor result) ;;
  let '(r, g, b) := c in
  emit (setFillColor r g b) ;;
  emit (roundedRect 14 y 60 18 4 4) ;;
  emit (setFont "helvetica" "bold") ;;
  emit (setFontSize 18) ;;
  emit (setTextColor 255 255 255) ;;
  emit (text [orString (emotion result) "Unknown"] 44 (y + 12) AlignCenter) ;;
  emit (setFont "helvetica" "normal") ;;
  emit (setFontSize 10) ;;
  emit (setTextColor 60 60 80) ;;
  emit (text ["Confidence:"] 82 (y + 7) AlignLeft) ;;
  emit (setFont "helvetica" "bold") ;;
  emit (setFontSize 16) ;;
  c <- iterate (emotionColor result) ;;
  let '(r, g, b) := c in
  emit (setTextColor r g b) ;;
  emit (text [numberToString rt (inject_Z (confPct result)) ++ "%"] 82 (y + 16) AlignLeft) ;;
  ret (y + 26).

(** 3. Band Powers *)
Definition bandPowersSection (result : ReportRecord) (y : Q) : M Q :=
  y <- addSectionTitle "EEG Band Powers (μV²/Hz)" y titleColor ;;
  y <- addBandPowerTable (bandPowers result) y ;;
  ret (y + 4).

(** [([, a], [, b]) => b - a]. *)
Definition byScoreDescending (x y : string * Q) : Q := snd y - snd x.

(** [Object.entries(scores).sort(...)]. *)
Definition rankedScores (scores : list (string * Q)) : list (string * Q) :=
  JS.sort byScoreDescending scores.

(** The [forEach] over the ranked entries; its callback assigns [y]. *)
Fixpoint scoreBars (entries : list (string * Q)) (y maxW : Q) : M Q :=
  match entries with
  | [] => ret y
  | (emo, score) :: rest =>
      y <- addEmotionScoreBar emo score y maxW ;;
      scoreBars rest y maxW
  end.

(** 4. Emotion Probability Scores *)
Definition scoresSection (result : ReportRecord) (y maxW : Q) : M Q :=
  y <- addSectionTitle "Emotion Probability Scores" y titleColor ;;
  let scores := match emotionScores result with Some o => o | None => [] end in
  y <- scoreBars (rankedScores scores) y (maxW - 40) ;;
  ret (y + 6).

(** 5. Clinical Interpretation *)
Definition interpretationSection (result : ReportRecord) (y maxW : Q) : M Q :=
  y <- addSectionTitle "Clinical Interpretation" y titleColor ;;
  emit (setFont "helvetica" "normal") ;;
  emit (setFontSize 10) ;;
  emit (setTextColor 40 40 60) ;;
  let interp := orString (interpretation result) "No interpretation available." in
  y <- wrapText interp 14 y maxW (11 # 2) ;;
  ret (y + 8).

Definition ratioLabels : list (string * string) :=
  [ ("alpha_beta_ratio", "Alpha/Beta Ratio (Relaxation Index)");
    ("theta_alpha_ratio", "Theta/Alpha Ratio (Mental Load Index)");
    ("fatigue_index", "Fatigue Index ((α+θ)/β)") ].

(** [(ratioLabels[key] || key) + ":"]. *)
Definition ratioLabel (key : string) : string :=
  match JS.orElse (JS.get ratioLabels key) key with
  | JS.Val label => label
  | JS.Proto n => JS.protoToString n
  end ++ ":".

(** The [forEach] over [Object.entries(result.ratios)]. *)
Fixpoint ratioRows (entries : list (string * scalar)) (y : Q) : M Q :=
  match entries with
  | [] => ret y
  | (key, val) :: rest =>
      y <- addKVRow (ratioLabel key) (fixed4 (numberToString rt) val) y ;;
      ratioRows rest y
  end.

(** [result.ratios && Object.keys(result.ratios).length > 0]. *)
Definition hasRatios (result : ReportRecord) : bool :=
  match ratios result with
  | Some o => Nat.ltb 0 (List.length o)
  | None => false
  end.

(** 6. Neurological Ratios (if available) *)
Definition ratiosSection (result : ReportRecord) (y : Q) : M Q :=
  if hasRatios result then
    y <- addSectionTitle "Neurological Ratios" y titleColor ;;
    y <- ratioRows (match ratios result with Some o => o | None => [] end) y ;;
    ret (y + 4)
  else ret y.

(** Everything [exportResultAsPDF] draws before the footer loop. *)
Definition layoutSections (result : ReportRecord) : M Q :=
  let pageW := pageWidth rt in
  let maxW := pageW - 28 in
  y <- addHeader result ;;
  y <- sessionInfo result y ;;
  y <- primaryEmotion result y ;;
  y <- bandPowersSection result y ;;
  y <- scoresSection result y maxW ;;
  y <- interpretationSection result y maxW ;;
  ratiosSection result y.

Definition attribution : string :=
  "Generated by EmoHarmony — EEG Emotional Analysis Platform".

(** [`Page ${p} of ${totalPages}`]. *)
Definition pageLabel (p totalPages : nat) : string :=
  "Page " ++ JS.stringOfNat p ++ " of " ++ JS.stringOfNat totalPages.

(** The body of the footer loop. *)
Definition footer (totalPages p : nat) : M unit :=
  let pageW := pageWidth rt in
  setPage p ;;
  let pH := pageHeight rt in
  emit (setFillColor 245 245 250) ;;
  emit (rect 0 (pH - 12) pageW 12) ;;
  emit (setFont "helvetica" "normal") ;;
  emit (setFontSize (15 # 2)) ;;
  emit (setTextColor 130 130 150) ;;
  emit (text [attribution] 14 (pH - (9 # 2)) AlignLeft) ;;
  emit (text [pageLabel p totalPages] (pageW - 14) (pH - (9 # 2)) AlignRight).

Fixpoint forEach {A : Type} (f : A -> M unit) (l : list A) : M unit :=
  match l with
  | [] => ret tt
  | x :: t => f x ;; forEach f t
  end.

(** [for (let p = 1; p <= totalPages; p++)]. *)
Definition footerPass : M unit :=
  totalPages <- getNumberOfPages ;;
  forEach (footer totalPages) (seq 1 totalPages).

(** [`EmoHarmony_Report_${result.emotion || "EEG"}_${Date.now()}.pdf`]. *)
Definition filename (result : ReportRecord) : string :=
  "EmoHarmony_Report_" ++ orString (emotion result) "EEG" ++ "_"
    ++ JS.stringOfZ (clockAtSave rt) ++ ".pdf".

(** How a call of [exportResultAsPDF] ends: it returns without having
    created a document, it saves the document under a file name, or it
    raises. *)
Inductive outcome : Type :=
| NoOutput
| Saved (name : string) (doc : Doc)
| Raised (e : exn).

Definition exportResultAsPDF (result : value) : outcome :=
  if negb (truthy result) then NoOutput
  else
    let result := fields result in
    match (layoutSections result ;; footerPass) jsPDF_new with
    | Ok (_, doc) => Saved (filename result) doc
    | Throw e => Raised e
    end.

End Report.

(** ** Reading a document back *)

(** Adding calls to the active page. *)
Definition pushAll (d : Doc) (cs : list call) : Doc :=
  {| numberOfPages := numberOfPages d;
     currentPage := currentPage d;
     drawn := drawn d ++ map (pair (currentPage d)) cs |}.

(** [writes m a cs]: on any document, [m] returns [a] after making the
    calls [cs] on the active page, and nothing else. *)
Definition writes {A : Type} (m : M A) (a : A) (cs : list call) : Prop :=
  forall d, m d = Ok (a, pushAll d cs).

(** [steady m]: whenever [m] returns, it has added calls to the active
    page only, and has changed neither the page count nor the active
    page. *)
Definition steady {A : Type} (m : M A) : Prop :=
  forall d a d', m d = Ok (a, d') ->
    numberOfPages d' = numberOfPages d /\
    currentPage d' = currentPage d /\
    exists cs, drawn d' = (drawn d ++ map (pair (currentPage d)) cs)%list.

(** [throws m]: on any document, [m] raises. *)
Definition throws {A : Type} (m : M A) : Prop :=
  forall d, exists e, m d = Throw e.

(** The lines written with a given alignment, in order. *)
Definition textsAligned (al : align) (cs : list call) : list string :=
  flat_map (fun c => match c with
                     | text l _ _ a =>
                         match a, al with
                         | AlignLeft, AlignLeft
                         | AlignCenter, AlignCenter
                         | AlignRight, AlignRight => l
                         | _, _ => []
                         end
                     | _ => []
                     end) cs.

Definition fillColors (cs : list call) : list rgb :=
  flat_map (fun c => match c with
                     | setFillColor r g b => [(r, g, b)]
                     | _ => []
                     end) cs.

Definition roundedRectWidths (cs : list call) : list Q :=
  flat_map (fun c => match c with
                     | roundedRect _ _ w _ _ _ => [w]
                     | _ => []
                     end) cs.

(** The width of the filled bar of one row of the probability list: the
    row draws the track first, then the bar, if any. *)
Definition filledBarWidth (row : list call) : Q :=
  match roundedRectWidths row with
  | [_; w] => w
  | _ => 0
  end.

(** [clamp(x, lo, hi)]. *)
Definition clamp (x lo hi : Q) : Q :=
  if Qle_bool x lo then lo else if Qle_bool hi x then hi else x.

(** What the footer loop is to put on page [p] of [totalPages]: a strip
    12 high along the bottom edge, the attribution on the left and the
    page indicator on the right. *)
Definition footerStamp (rt : Runtime) (totalPages p : nat) : list (nat * call) :=
  map (pair p)
    [ setFillColor 245 245 250;
      rect 0 (pageHeight rt - 12) (pageWidth rt) 12;
      setFont "helvetica" "normal";
      setFontSize (15 # 2);
      setTextColor 130 130 150;
      text [attribution] 14 (pageHeight rt - (9 # 2)) AlignLeft;
      text [pageLabel p totalPages] (pageWidth rt - 14) (pageHeight rt - (9 # 2)) AlignRight ].

(** Ranked from the highest score down. *)
Definition scoreGe (a b : string * Q) : Prop := snd b <= snd a.


(** The two texts of a ratio row: its label and its value. *)
Definition ratioRowTexts (rt : Runtime) (e : string * scalar) : list string :=
  [ratioLabel (fst e); String_ (numberToString rt) (fixed4 (numberToString rt) (snd e))].

Definition drawnOf (o : outcome) : list (nat * call) :=
  match o with
  | Saved _ doc => drawn doc
  | _ => []
  end.

(** The cursor [y] when the last section is done. *)
Definition finalCursor (rt : Runtime) (result : ReportRecord) : option Q :=
  match layoutSections rt result jsPDF_new with
  | Ok (y, _) => Some y
  | Throw _ => None
  end.

(** The page indicators of a document, each with the page it is on. *)
Definition pageIndicators (cs : list (nat * call)) : list (nat * string) :=
  flat_map (fun pc => match snd pc with
                      | text [s] _ _ AlignRight =>
                          if String.prefix "Page " s then [(fst pc, s)] else []
                      | _ => []
                      end) cs.

(** ** A sample environment *)

Definition newline : ascii := ascii_of_nat 10.

(** Splitting at line feeds, which is what jsPDF's [splitTextToSize]
    returns when none of the lines is wider than the limit. *)
Fixpoint splitLines (s acc : string) : list string :=
  match s with
  | EmptyString => [acc]
  | String c t =>
      if Ascii.eqb c newline then acc :: splitLines t ""
      else splitLines t (acc ++ String c "")
  end.

(** An A4 portrait page in millimetres, integral numbers printed in
    decimal, dates printed as their epoch milliseconds. *)
Definition sampleRuntime (headerClock saveClock : Z) : Runtime :=
  {| pageWidth := 210;
     pageHeight := 297;
     splitTextToSize := fun s _ => splitLines s "";
     numberToString := fun q => JS.stringOfZ (Qfloor q);
     dateToLocaleString_enIN := fun iso => iso;
     toLocaleString := JS.stringOfZ;
     clockAtHeader := headerClock;
     clockAtSave := saveClock |}.

Definition withEmotion (e : option string) : ReportRecord :=
  {| _id := None; datasetName := None; modelUsed := None;
     processingTime := None; createdAt := None; emotion := e;
     confidence := None; bandPowers := None; emotionScores := None;
     interpretation := None; ratios := None |}.

Definition withScores (s : list (string * Q)) : ReportRecord :=
  {| _id := None; datasetName := None; modelUsed := None;
     processingTime := None; createdAt := None; emotion := None;
     confidence := None; bandPowers := None; emotionScores := Some s;
     interpretation := None; ratios := None |}.

Definition withRatios (o : list (string * scalar)) : ReportRecord :=
  {| _id := None; datasetName := None; modelUsed := None;
     processingTime := None; createdAt := None; emotion := None;
     confidence := None; bandPowers := None; emotionScores := None;
     interpretation := None; ratios := Some o |}.

Definition withInterpretation (s : string) : ReportRecord :=
  {| _id := None; datasetName := None; modelUsed := None;
     processingTime := None; createdAt := None; emotion := None;
     confidence := None; bandPowers := None; emotionScores := None;
     interpretation := Some s; ratios := None |}.


Definition withCreatedAt (c : string) : ReportRecord :=
  {| _id := None; datasetName := None; modelUsed := None;
     processingTime := None; createdAt := Some c; emotion := None;
     confidence := None; bandPowers := None; emotionScores := None;
     interpretation := None; ratios := None |}.

(** [n] lines of one letter each. *)
Fixpoint shortLines (n : nat) : string :=
  match n with
  | O => ""
  | S O => "x"
  | S k => String "x" (String newline (shortLines k))
  end.

(** The argument of every [setTextColor] call, in order. *)
Definition textColors (cs : list call) : list rgb :=
  flat_map (fun c => match c with
                     | setTextColor r g b => [(r, g, b)]
                     | _ => []
                     end) cs.

(** The rounded rectangles drawn, in order: x, y, width, height. *)
Definition roundedRects (cs : list call) : list (Q * Q * Q * Q) :=
  flat_map (fun c => match c with
                     | roundedRect x y w h _ _ => [(x, y, w, h)]
                     | _ => []
                     end) cs.

(** A row of the probability list raises when its label names a member
    inherited from [Object.prototype] and its bar is to be drawn. *)
Definition rowRaises (maxW : Q) (e : string * Q) : bool :=
  JS.inb (fst e) JS.objectPrototypeKeys && JS.gt (barWOf (snd e) maxW) 0.

(** The records on which the export raises. *)
Definition raises (rt : Runtime) (r : ReportRecord) : bool :=
  JS.inb (propertyKey (emotion r)) JS.objectPrototypeKeys
  || existsb (rowRaises (pageWidth rt - 28 - 40))
             (match emotionScores r with Some o => o | None => [] end).

(** The height the sections take from the top of the page, from the number of
    scores, of wrapped lines and of ratios. *)
Definition layoutHeight (rt : Runtime) (r : ReportRecord) : Q :=
  223
  + 9 * inject_Z (Z.of_nat
          (List.length (match emotionScores r with Some o => o | None => [] end)))
  + (11 # 2) * inject_Z (Z.of_nat (List.length
          (splitTextToSize rt
             (orString (interpretation r) "No interpretation available.")
             (pageWidth rt - 28))))
  + (if hasRatios r
     then 16 + 7 * inject_Z (Z.of_nat
            (List.length (match ratios r with Some o => o | None => [] end)))
     else 0).




(** Reading a decimal integer back. *)
Definition parseZ (s : string) : option Z :=
  option_map Z.of_int (NilZero.int_of_string s).

(** ** The counter hook (utils/useCountUp) *)

Module CountUp.

(** What [setValue] receives: the number [Math.round] returns, or the
    string [toFixed] returns. *)
Inductive shown : Type :=
| Rounded (n : Z)
| Fixed (s : string).

(** [Number.isInteger] on a finite number. *)
Definition isInteger (q : Q) : bool := Z.eqb (Zpos (Qden (Qred q))) 1.

(** One call of [tick]: the value it sets and whether it requests
    another frame. *)
Record frame : Type := {
  value : shown;
  again : bool
}.

(** [tick(now)], for the [endNum], [duration] and [startTime] of its
    closure. *)
Definition tick (toStr : Q -> string) (endNum duration startTime now : Q) : frame :=
  let elapsed := now - startTime in
  let progress := JS.Math_min (elapsed / duration) 1 in
  let eased := 1 - (1 - progress) ^ 3 in
  {| value := if isInteger endNum
              then Rounded (JS.Math_round (eased * endNum))
              else Fixed (JS.toFixed toStr (eased * endNum) 1);
     again := JS.gt 1 progress |}.

(** The [progress] and [eased] of [tick], by name. *)
Definition progressOf (duration elapsed : Q) : Q :=
  JS.Math_min (elapsed / duration) 1.

Definition easedOf (p : Q) : Q := 1 - (1 - p) ^ 3.

(** The text the hook returns: [`${value}${suffix}`]. *)
Definition display (toStr : Q -> string) (v : shown) (suffix : string) : string :=
  match v with
  | Rounded n => toStr (inject_Z n)
  | Fixed s => s
  end ++ suffix.

(** The part of the hook that outlives a render: the [started] ref and
    the [startTime] of the running animation. *)
Record hook : Type := {
  started : bool;
  startTime : option Q
}.

Definition initial : hook := {| started := false; startTime := None |}.

(** The callback of the [IntersectionObserver], called with
    [entry.isIntersecting] when [performance.now()] reads [now]: the
    hook afterwards, and whether [requestAnimationFrame(tick)] was
    called. *)
Definition onIntersect (h : hook) (ev : bool * Q) : hook * bool :=
  let '(isIntersecting, now) := ev in
  if isIntersecting && negb (started h)
  then ({| started := true; startTime := Some now |}, true)
  else (h, false).

(** A run of observer callbacks: the hook afterwards and the number of
    animations requested. *)
Fixpoint observe (h : hook) (evs : list (bool * Q)) : hook * nat :=
  match evs with
  | [] => (h, O)
  | ev :: rest =>
      let '(h', fired) := onIntersect h ev in
      let '(h'', n) := observe h' rest in
      (h'', ((if fired then 1 else 0) + n)%nat)
  end.

End CountUp.

(** * Properties *)

(** ** The monad *)

Lemma pushAll_nil d : pushAll d [] = d.
Proof. destruct d; unfold pushAll; simpl. now rewrite app_nil_r. Qed.

Lemma pushAll_app d cs cs' :
  pushAll (pushAll d cs) cs' = pushAll d (cs ++ cs')%list.
Proof. unfold pushAll; simpl. now rewrite map_app, app_assoc. Qed.

Lemma writes_ret {A} (a : A) : writes (ret a) a [].
Proof. intro d. unfold ret. now rewrite pushAll_nil. Qed.

Lemma writes_emit c : writes (emit c) tt [c].
Proof. intro d. reflexivity. Qed.

Lemma writes_bind {A B} (m : M A) (k : A -> M B) a b cs cs' :
  writes m a cs -> writes (k a) b cs' -> writes (bind m k) b (cs ++ cs')%list.
Proof.
  intros Hm Hk d. unfold bind. rewrite Hm, Hk. now rewrite pushAll_app.
Qed.

Lemma writes_iterate (c : rgb) : writes (iterate (JS.Val c)) c [].
Proof. apply writes_ret. Qed.

Lemma writes_steady {A} (m : M A) a cs : writes m a cs -> steady m.
Proof.
  intros H d a' d' E. rewrite H in E. injection E as _ <-.
  simpl. repeat split. now exists cs.
Qed.

Lemma steady_ret {A} (a : A) : steady (ret a).
Proof. eapply writes_steady, writes_ret. Qed.

Lemma steady_emit c : steady (emit c).
Proof. eapply writes_steady, writes_emit. Qed.

Lemma steady_throw {A} e : steady (@throw A e).
Proof. intros d a d' E. discriminate. Qed.

Lemma steady_iterate c : steady (iterate c).
Proof. destruct c; [apply steady_ret | apply steady_throw]. Qed.

Lemma steady_bind {A B} (m : M A) (k : A -> M B) :
  steady m -> (forall a, steady (k a)) -> steady (bind m k).
Proof.
  intros Hm Hk d b d2 E. unfold bind in E.
  destruct (m d) as [[a d1]|e] eqn:E1; [|discriminate].
  destruct (Hm _ _ _ E1) as (P1 & C1 & cs1 & D1).
  destruct (Hk a _ _ _ E) as (P2 & C2 & cs2 & D2).
  repeat split; try congruence.
  exists (cs1 ++ cs2)%list. rewrite D2, D1, C1, map_app, app_assoc. reflexivity.
Qed.

Lemma steady_if {A} (b : bool) (m1 m2 : M A) :
  steady m1 -> steady m2 -> steady (if b then m1 else m2).
Proof. now destruct b. Qed.

Create HintDb steady.
#[local] Hint Resolve steady_ret steady_emit steady_throw steady_iterate : steady.
#[local] Hint Extern 2 (steady (bind _ _)) => apply steady_bind; [ | intro ] : steady.
#[local] Hint Extern 2 (steady (if _ then _ else _)) => apply steady_if : steady.
#[local] Hint Extern 4 (steady _) =>
  match goal with c : rgb |- _ => destruct c as [[? ?] ?] end : steady.

(** Builds the list of calls of a straight-line helper. *)
Ltac writes_all :=
  repeat first
    [ apply writes_ret
    | apply writes_emit
    | apply writes_iterate
    | eapply writes_bind ].

(** ** Theme lookup *)

Lemma inb_false_get {A} (tbl : list (string * A)) key fb :
  JS.inb key JS.objectPrototypeKeys = false ->
  exists v, JS.orElse (JS.get tbl key) fb = JS.Val v /\
            (JS.assoc key tbl = None -> v = fb).
Proof.
  intro H. unfold JS.get. destruct (JS.assoc key tbl) as [v|].
  - exists v. split; [reflexivity | discriminate].
  - rewrite H. exists fb. now split.
Qed.

(** ** The sections only add to the active page *)

Section Steady.

Variable rt : Runtime.

Lemma steady_addHeader r : steady (addHeader rt r).
Proof. unfold addHeader. auto 40 with steady. Qed.

Lemma steady_addSectionTitle t y c : steady (addSectionTitle rt t y c).
Proof. unfold addSectionTitle. destruct c as [[? ?] ?]. auto 20 with steady. Qed.

Lemma steady_addKVRow l v y : steady (addKVRow rt l v y).
Proof. unfold addKVRow. auto 20 with steady. Qed.

Lemma steady_bandCell bp y w b i : steady (bandCell rt bp y w b i).
Proof. unfold bandCell. auto 30 with steady. Qed.

Lemma steady_forEachIndexed {A} (f : A -> nat -> M unit) l :
  (forall x i, steady (f x i)) -> forall i, steady (forEachIndexed f l i).
Proof.
  intro Hf. induction l as [|x t IH]; intro i; simpl; auto with steady.
Qed.

Lemma steady_addBandPowerTable bp y : steady (addBandPowerTable rt bp y).
Proof.
  unfold addBandPowerTable. apply steady_bind; [|auto with steady].
  apply steady_forEachIndexed. intros. apply steady_bandCell.
Qed.

Lemma steady_addEmotionScoreBar e s y w : steady (addEmotionScoreBar rt e s y w).
Proof. unfold addEmotionScoreBar. auto 40 with steady. Qed.

Lemma steady_wrapText t x y w h : steady (wrapText rt t x y w h).
Proof. unfold wrapText. auto with steady. Qed.

#[local] Hint Resolve steady_addHeader steady_addSectionTitle steady_addKVRow
  steady_addBandPowerTable steady_addEmotionScoreBar steady_wrapText : steady.

Lemma steady_scoreBars l : forall y w, steady (scoreBars rt l y w).
Proof.
  induction l as [|[emo score] t IH]; intros; simpl; auto with steady.
Qed.

Lemma steady_ratioRows l : forall y, steady (ratioRows rt l y).
Proof.
  induction l as [|[key val] t IH]; intros; simpl; auto with steady.
Qed.

#[local] Hint Resolve steady_scoreBars steady_ratioRows : steady.

Lemma steady_layoutSections r : steady (layoutSections rt r).
Proof.
  unfold layoutSections, sessionInfo, primaryEmotion, bandPowersSection,
    scoresSection, interpretationSection, ratiosSection.
  auto 60 with steady.
Qed.

End Steady.

(** ** The footer pass *)

Section Footer.

Variable rt : Runtime.

Lemma footer_run total p d :
  footer rt total p d =
  Ok (tt, {| numberOfPages := numberOfPages d;
             currentPage := p;
             drawn := drawn d ++ footerStamp rt total p |}).
Proof.
  unfold footer, bind, setPage, emit, push, footerStamp. simpl.
  repeat rewrite <- app_assoc. reflexivity.
Qed.

Lemma forEach_footer total l : forall d,
  exists d',
    forEach (footer rt total) l d = Ok (tt, d') /\
    numberOfPages d' = numberOfPages d /\
    drawn d' = (drawn d ++ flat_map (footerStamp rt total) l)%list.
Proof.
  induction l as [|p t IH]; intro d; simpl.
  - exists d. unfold ret. now rewrite app_nil_r.
  - unfold bind. rewrite footer_run.
    destruct (IH {| numberOfPages := numberOfPages d; currentPage := p;
                    drawn := drawn d ++ footerStamp rt total p |})
      as (d' & E & P & D).
    exists d'. repeat split; [exact E | exact P |].
    rewrite D. simpl. now rewrite <- app_assoc.
Qed.

(** On a document of [N] pages the footer pass returns, having stamped
    the pages 1 to [N] in turn and nothing else. *)
Lemma footerPass_run d :
  exists d',
    footerPass rt d = Ok (tt, d') /\
    drawn d' = (drawn d ++ flat_map (footerStamp rt (numberOfPages d))
                                     (seq 1 (numberOfPages d)))%list.
Proof.
  unfold footerPass, bind, getNumberOfPages.
  destruct (forEach_footer (numberOfPages d) (seq 1 (numberOfPages d)) d)
    as (d' & E & _ & D).
  now exists d'.
Qed.

Lemma layoutSections_fresh r y d :
  layoutSections rt r jsPDF_new = Ok (y, d) ->
  numberOfPages d = 1%nat /\ currentPage d = 1%nat /\
  exists cs, drawn d = map (pair 1%nat) cs.
Proof.
  intro E. destruct (steady_layoutSections rt r _ _ _ E) as (P & C & cs & D).
  repeat split; [exact P | exact C |]. exists cs. exact D.
Qed.

End Footer.

Lemma pageIndicators_stamp rt total p :
  pageIndicators (footerStamp rt total p) = [(p, pageLabel p total)].
Proof.
  unfold pageIndicators, footerStamp, pageLabel. simpl.
  match goal with |- context [prefix "" ?x] => now destruct x end.
Qed.

(** C8, as the code has it. The footer loop starts when the last section
    has returned; on a document of [N] pages it stamps, for p = 1 .. N in
    turn, the strip of height 12, the attribution on the left and
    "Page p of N" on the right of page p (for [N] = 3 the indicators
    1 of 3, 2 of 3 and 3 of 3). No section adds a page: however far down
    the content reaches, the document of an export still has the single
    page it was created with, and its footer pass adds exactly the stamp
    of page 1 of 1 behind what the sections drew. *)
Theorem footer_pass_after_sections (rt : Runtime) :
  (forall d, exists d',
      footerPass rt d = Ok (tt, d') /\
      drawn d' = (drawn d ++ flat_map (footerStamp rt (numberOfPages d))
                                       (seq 1 (numberOfPages d)))%list) /\
  (forall total p,
      pageIndicators (footerStamp rt total p) = [(p, pageLabel p total)]) /\
  pageIndicators (flat_map (footerStamp rt 3) (seq 1 3))
    = [(1%nat, "Page 1 of 3"); (2%nat, "Page 2 of 3"); (3%nat, "Page 3 of 3")] /\
  (forall r,
      match layoutSections rt r jsPDF_new with
      | Ok (y, d) =>
          numberOfPages d = 1%nat /\
          exists d', exportResultAsPDF rt (VObject r) = Saved (filename rt r) d' /\
                     drawn d' = (drawn d ++ footerStamp rt 1 1)%list /\
                     pageIndicators (footerStamp rt 1 1) = [(1%nat, "Page 1 of 1")]
      | Throw e => exportResultAsPDF rt (VObject r) = Raised e
      end).
Proof.
  split; [apply footerPass_run|].
  split; [apply pageIndicators_stamp | split; [reflexivity|]].
  intro r. unfold exportResultAsPDF, bind. simpl.
  destruct (layoutSections rt r jsPDF_new) as [[y d]|e] eqn:E; [|reflexivity].
  destruct (layoutSections_fresh rt _ _ _ E) as (P & _ & _).
  split; [exact P|].
  destruct (footerPass_run rt d) as (d' & F & D).
  exists d'. rewrite F. split; [reflexivity|]. split; [|reflexivity].
  rewrite D, P. cbn [seq flat_map]. now rewrite app_nil_r.
Qed.

(** ** The probability bars *)

Lemma gt_true a b : JS.gt a b = true <-> b < a.
Proof.
  unfold JS.gt. rewrite negb_true_iff.
  destruct (Qle_bool a b) eqn:E.
  - apply Qle_bool_iff in E. split; [discriminate | lra].
  - split; [intros _ | reflexivity].
    apply Qnot_le_lt. intro H. apply Qle_bool_iff in H. congruence.
Qed.

Lemma gt_false a b : JS.gt a b = false <-> a <= b.
Proof.
  destruct (JS.gt a b) eqn:E.
  - apply gt_true in E. split; [discriminate | lra].
  - split; [intros _ | reflexivity].
    apply Qnot_lt_le. intro H. apply gt_true in H. congruence.
Qed.

Lemma Math_min_spec a b :
  (a <= b /\ JS.Math_min a b = a) \/ (b < a /\ JS.Math_min a b = b).
Proof.
  unfold JS.Math_min. destruct (Qle_bool a b) eqn:E.
  - left. split; [now apply Qle_bool_iff | reflexivity].
  - right. split; [|reflexivity].
    apply Qnot_le_lt. intro H. apply Qle_bool_iff in H. congruence.
Qed.

Lemma clamp01_spec x :
  (x <= 0 /\ clamp x 0 1 = 0) \/
  (0 < x /\ 1 <= x /\ clamp x 0 1 = 1) \/
  (0 < x /\ x < 1 /\ clamp x 0 1 = x).
Proof.
  unfold clamp. destruct (Qle_bool x 0) eqn:E0.
  - left. split; [now apply Qle_bool_iff | reflexivity].
  - right.
    assert (0 < x) as Hx
      by (apply Qnot_le_lt; intro H; apply Qle_bool_iff in H; congruence).
    destruct (Qle_bool 1 x) eqn:E1.
    + left. repeat split; [exact Hx | now apply Qle_bool_iff].
    + right. repeat split; [exact Hx |].
      apply Qnot_le_lt. intro H. apply Qle_bool_iff in H. congruence.
Qed.

(** [barW] is the clamped score times the track, except that a negative
    score leaves it negative. *)
Lemma barWOf_spec score maxW :
  (score <= 0 /\ barWOf score maxW == score * maxW) \/
  (0 < score /\ barWOf score maxW == clamp score 0 1 * maxW).
Proof.
  unfold barWOf, pctOf.
  destruct (Math_min_spec (score * 100) 100) as [[H ->]|[H ->]];
    destruct (clamp01_spec score) as [[C ->]|[(C0 & C & ->)|(C0 & C & ->)]].
  - left. split; [exact C | field].
  - right. split; [exact C0|]. assert (score == 1) as -> by lra. field.
  - right. split; [exact C0 | field].
  - lra.
  - right. split; [exact C0 | field].
  - lra.
Qed.

(** The calls of one row, given the colour its label resolves to. *)
Lemma addEmotionScoreBar_row rt emo score y maxW c :
  JS.orElse (JS.get EMOTION_COLORS emo) fallbackColor = JS.Val c ->
  exists row,
    writes (addEmotionScoreBar rt emo score y maxW) (y + 9) row /\
    textsAligned AlignLeft row = [emo] /\
    roundedRectWidths row =
      maxW :: (if JS.gt (barWOf score maxW) 0 then [barWOf score maxW] else []).
Proof.
  intro Hc. unfold addEmotionScoreBar. rewrite Hc.
  destruct c as [[r g] b].
  destruct (JS.gt (barWOf score maxW) 0); eexists; (split; [writes_all|]);
    split; reflexivity.
Qed.

(** C1. A row of the probability list draws the track at the full track
    width and, on it, a filled bar whose width is clamp(score, 0, 1)
    times the track width: the whole track from score 1 upwards (so at
    1.4), and no filled bar at all, hence width zero, for a score that
    is not positive (so at -0.1). The bar is never wider than the track
    and never of negative width. *)
Theorem bar_width_is_clamped_score (rt : Runtime) (emo : string) (score y maxW : Q) :
  0 <= maxW ->
  JS.inb emo JS.objectPrototypeKeys = false ->
  exists row,
    writes (addEmotionScoreBar rt emo score y maxW) (y + 9) row /\
    filledBarWidth row == clamp score 0 1 * maxW /\
    0 <= filledBarWidth row /\ filledBarWidth row <= maxW /\
    (1 <= score -> filledBarWidth row == maxW) /\
    (score <= 0 -> roundedRectWidths row = [maxW] /\ filledBarWidth row == 0).
Proof.
  intros Hm Hk.
  destruct (inb_false_get EMOTION_COLORS emo fallbackColor Hk) as (c & Hc & _).
  destruct (addEmotionScoreBar_row rt emo score y maxW c Hc) as (row & W & _ & R).
  exists row. split; [exact W|].
  unfold filledBarWidth. rewrite R. clear R W.
  destruct (barWOf_spec score maxW) as [[Hs E]|[Hs E]];
    destruct (JS.gt (barWOf score maxW) 0) eqn:G;
    try (apply gt_true in G); try (apply gt_false in G);
    destruct (clamp01_spec score) as [[C Ec]|[(C0 & C & Ec)|(C0 & C & Ec)]];
    rewrite Ec in *; try lra; try nra.
  all: repeat split; intros; try reflexivity; try lra; try nra.
Qed.

Lemma bar_width_is_clamped_score_witness :
  0 <= 142 /\
  JS.inb "Happy" JS.objectPrototypeKeys = false /\
  exists row,
    writes (addEmotionScoreBar (sampleRuntime 0 0) "Happy" (14 # 10) 0 142) (0 + 9) row /\
    filledBarWidth row == clamp (14 # 10) 0 1 * 142 /\
    0 <= filledBarWidth row /\ filledBarWidth row <= 142 /\
    (1 <= 14 # 10 -> filledBarWidth row == 142) /\
    (14 # 10 <= 0 -> roundedRectWidths row = [142] /\ filledBarWidth row == 0).
Proof.
  assert (0 <= 142) as H by (unfold Qle; simpl; lia).
  split; [exact H | split; [reflexivity |]].
  exact (bar_width_is_clamped_score (sampleRuntime 0 0) "Happy" (14 # 10) 0 142
           H eq_refl).
Defined.

(** ** Ranking the scores *)

Lemma byScoreDescending_gt x y :
  JS.gt (byScoreDescending x y) 0 = true <-> snd x < snd y.
Proof. rewrite gt_true. unfold byScoreDescending. split; intro; lra. Qed.

Lemma insert_perm x l :
  Permutation (JS.insert byScoreDescending x l) (x :: l).
Proof.
  induction l as [|y t IH]; simpl; [reflexivity|].
  destruct (JS.gt (byScoreDescending x y) 0); [|reflexivity].
  rewrite IH. apply perm_swap.
Qed.

Lemma sort_perm l : Permutation (JS.sort byScoreDescending l) l.
Proof.
  induction l as [|x t IH]; simpl; [reflexivity|].
  rewrite insert_perm. now constructor.
Qed.

Lemma insert_sorted x l :
  StronglySorted scoreGe l ->
  StronglySorted scoreGe (JS.insert byScoreDescending x l).
Proof.
  induction 1 as [|y t St IH Hy]; simpl.
  - repeat constructor.
  - destruct (JS.gt (byScoreDescending x y) 0) eqn:G.
    + apply byScoreDescending_gt in G. constructor; [exact IH|].
      eapply Permutation_Forall; [symmetry; apply insert_perm|].
      constructor; [unfold scoreGe; lra | exact Hy].
    + apply gt_false in G. unfold byScoreDescending in G.
      constructor; [now constructor|].
      constructor; [unfold scoreGe; lra|].
      eapply Forall_impl; [|exact Hy]. unfold scoreGe. intros z Hz. lra.
Qed.

Lemma sort_sorted l : StronglySorted scoreGe (JS.sort byScoreDescending l).
Proof.
  induction l as [|x t IH]; simpl; [constructor | now apply insert_sorted].
Qed.




(** The rows of the probability list carry the labels of the entries, in
    the order of the entries. *)
Lemma scoreBars_labels rt entries :
  (forall e, In e entries -> JS.inb (fst e) JS.objectPrototypeKeys = false) ->
  forall y maxW, exists y' cs,
    writes (scoreBars rt entries y maxW) y' cs /\
    textsAligned AlignLeft cs = map fst entries.
Proof.
  induction entries as [|[emo score] t IH]; intros Hk y maxW.
  - exists y, []. split; [apply writes_ret | reflexivity].
  - destruct (inb_false_get EMOTION_COLORS emo fallbackColor
                (Hk (emo, score) (or_introl eq_refl))) as (c & Hc & _).
    destruct (addEmotionScoreBar_row rt emo score y maxW c Hc) as (row & W & L & _).
    destruct (IH (fun e H => Hk e (or_intror H)) (y + 9) maxW) as (y' & cs & W' & L').
    exists y', (row ++ cs)%list. split.
    + cbn [scoreBars]. eapply writes_bind; [exact W | exact W'].
    + unfold textsAligned in *. rewrite flat_map_app, L, L'. reflexivity.
Qed.

(** ** The guard on the argument *)

(** C6. Called with [null] or [undefined], the export returns at once:
    no document is created, nothing is saved, nothing is raised. *)
Theorem export_of_absent_record_is_noop (rt : Runtime) :
  exportResultAsPDF rt VNull = NoOutput /\
  exportResultAsPDF rt VUndefined = NoOutput.
Proof. split; reflexivity. Qed.

(** C10. The guard is a falsiness test: for every falsy argument, among
    them [null], [undefined], 0, the empty string, [false] and [NaN], the
    export is a no-op that creates no document and raises nothing; every
    truthy argument gets past the guard. *)
Theorem export_guard_is_falsiness (rt : Runtime) (v : value) :
  (truthy v = false -> exportResultAsPDF rt v = NoOutput) /\
  (truthy v = true -> exportResultAsPDF rt v <> NoOutput) /\
  Forall (fun w => truthy w = false /\ exportResultAsPDF rt w = NoOutput)
         [VNull; VUndefined; VNumber 0; VString ""; VBoolean false; VNaN].
Proof.
  split; [|split].
  - intro H. unfold exportResultAsPDF. now rewrite H.
  - intro H. unfold exportResultAsPDF. rewrite H. cbn [negb].
    destruct ((layoutSections rt (fields v) ;; footerPass rt) jsPDF_new)
      as [[? ?]|?]; discriminate.
  - repeat constructor.
Qed.

Lemma export_guard_is_falsiness_witness :
  truthy (VNumber 0) = false /\
  exportResultAsPDF (sampleRuntime 0 0) (VNumber 0) = NoOutput.
Proof.
  split; [reflexivity|].
  exact (proj1 (export_guard_is_falsiness (sampleRuntime 0 0) (VNumber 0)) eq_refl).
Defined.

(** ** Theme colours *)

(** X14. Away from the names inherited from [Object.prototype], both tables
    resolve as documented: each label to its own colour, pairwise
    distinct within a table, and any other key to the one fallback. *)
Lemma theme_lookup_off_prototype :
  map (fun k => JS.orElse (JS.get EMOTION_COLORS k) fallbackColor)
      ["Happy"; "Calm"; "Stress"; "Angry"; "Sad"]
    = map JS.Val [(245, 158, 11); (16, 185, 129); (139, 92, 246);
                  (239, 68, 68); (59, 130, 246)]%Z /\
  map (fun k => JS.orElse (JS.get bandColors k) fallbackColor) bands
    = map JS.Val [(59, 130, 246); (139, 92, 246); (16, 185, 129);
                  (245, 158, 11); (239, 68, 68)]%Z /\
  NoDup (map snd EMOTION_COLORS) /\
  NoDup (map snd bandColors) /\
  forall key,
    JS.inb key JS.objectPrototypeKeys = false ->
    (JS.assoc key EMOTION_COLORS = None ->
     JS.orElse (JS.get EMOTION_COLORS key) fallbackColor = JS.Val fallbackColor) /\
    (JS.assoc key bandColors = None ->
     JS.orElse (JS.get bandColors key) fallbackColor = JS.Val fallbackColor).
Proof.
  split; [reflexivity | split; [reflexivity|]].
  split; [|split].
  - repeat constructor; simpl; intuition congruence.
  - repeat constructor; simpl; intuition congruence.
  - intros key H. split; intro N; unfold JS.get; now rewrite N, H.
Qed.

(** C5, at the failing key. ["constructor"] is no label of either table,
    yet neither lookup yields the fallback: both yield the member
    inherited from [Object.prototype], and an export of a record with
    that emotion raises when the header destructures the colour. *)
Theorem theme_lookup_inherited_key (rt : Runtime) :
  JS.assoc "constructor" EMOTION_COLORS = None /\
  JS.assoc "constructor" bandColors = None /\
  JS.orElse (JS.get EMOTION_COLORS "constructor") fallbackColor
    = JS.Proto "constructor" /\
  JS.orElse (JS.get bandColors "constructor") fallbackColor
    = JS.Proto "constructor" /\
  exportResultAsPDF rt (VObject (withEmotion (Some "constructor")))
    = Raised (TypeError "constructor is not iterable").
Proof. repeat split; reflexivity. Qed.

(** ** The band-power table *)

Lemma addBandPowerTable_writes rt bp y :
  exists cs,
    writes (addBandPowerTable rt bp y) (y + 22) cs /\
    textsAligned AlignCenter cs =
      flat_map (fun band => [toUpperCase band; bandText rt (bandValue bp band)]) bands.
Proof.
  unfold addBandPowerTable, bands. cbn [forEachIndexed List.length].
  unfold bandCell. cbn [JS.get JS.assoc String.eqb Ascii.eqb Bool.eqb JS.orElse bandColors].
  eexists. split; [writes_all | reflexivity].
Qed.

(** C9. Without [bandPowers] the table writes 0.0000 under each of the
    five band chips, and whatever the band values are it returns the
    cursor moved down by 22. *)
Theorem band_table_defaults (rt : Runtime) (r : ReportRecord) (y : Q) :
  (bandPowers r = None ->
   exists cs,
     writes (addBandPowerTable rt (bandPowers r) y) (y + 22) cs /\
     textsAligned AlignCenter cs =
       ["DELTA"; "0.0000"; "THETA"; "0.0000"; "ALPHA"; "0.0000";
        "BETA"; "0.0000"; "GAMMA"; "0.0000"]) /\
  (forall bp, exists cs, writes (addBandPowerTable rt bp y) (y + 22) cs).
Proof.
  split.
  - intros ->. destruct (addBandPowerTable_writes rt None y) as (cs & W & T).
    exists cs. split; [exact W|]. rewrite T. reflexivity.
  - intro bp. destruct (addBandPowerTable_writes rt bp y) as (cs & W & _).
    now exists cs.
Qed.

Lemma band_table_defaults_witness :
  bandPowers noFields = None /\
  exists cs,
    writes (addBandPowerTable (sampleRuntime 0 0) (bandPowers noFields) 159)
           (159 + 22) cs /\
    textsAligned AlignCenter cs =
      ["DELTA"; "0.0000"; "THETA"; "0.0000"; "ALPHA"; "0.0000";
       "BETA"; "0.0000"; "GAMMA"; "0.0000"].
Proof.
  split; [reflexivity|].
  exact (proj1 (band_table_defaults (sampleRuntime 0 0) noFields 159) eq_refl).
Defined.

(** ** The ratio section *)

Lemma ratioRows_writes rt entries : forall y,
  exists y' cs,
    writes (ratioRows rt entries y) y' cs /\
    textsAligned AlignLeft cs = flat_map (ratioRowTexts rt) entries.
Proof.
  induction entries as [|[key val] t IH]; intro y.
  - exists y, []. split; [apply writes_ret | reflexivity].
  - destruct (IH (y + 7)) as (y' & cs & W & T).
    eexists y', _. split.
    + cbn [ratioRows]. eapply writes_bind; [|exact W].
      unfold addKVRow. writes_all.
    + unfold textsAligned in *. rewrite flat_map_app, T. reflexivity.
Qed.

Lemma ratiosSection_writes rt r y :
  if hasRatios r then
    exists o y' cs,
      ratios r = Some o /\ o <> [] /\
      writes (ratiosSection rt r y) y' cs /\
      textsAligned AlignLeft cs = "Neurological Ratios" :: flat_map (ratioRowTexts rt) o
  else
    (ratios r = None \/ ratios r = Some []) /\ writes (ratiosSection rt r y) y [].
Proof.
  unfold ratiosSection, hasRatios.
  destruct (ratios r) as [[|e o]|]; cbn [List.length Nat.ltb Nat.leb].
  - split; [now right | apply writes_ret].
  - destruct (ratioRows_writes rt (e :: o) (y + 5 + 7)) as (y' & cs & W & T).
    exists (e :: o). eexists _, _. split; [reflexivity|]. split; [discriminate|].
    split.
    + unfold addSectionTitle, titleColor.
      eapply writes_bind; [writes_all|].
      eapply writes_bind; [exact W | apply writes_ret].
    + unfold textsAligned in *. repeat rewrite flat_map_app. rewrite T.
      cbn [flat_map app]. now rewrite ?app_nil_r.
  - split; [now left | apply writes_ret].
Qed.

(** Away from the names inherited from [Object.prototype], the labels of
    the ratio rows are as documented, and numbers get four decimals. *)
Lemma ratio_rows_off_prototype rt :
  map ratioLabel ["alpha_beta_ratio"; "theta_alpha_ratio"; "fatigue_index"]
    = ["Alpha/Beta Ratio (Relaxation Index):";
       "Theta/Alpha Ratio (Mental Load Index):";
       "Fatigue Index ((α+θ)/β):"] /\
  (forall key, JS.assoc key ratioLabels = None ->
               JS.inb key JS.objectPrototypeKeys = false ->
               ratioLabel key = key ++ ":") /\
  (forall key q, ratioRowTexts rt (key, SNum q)
                 = [ratioLabel key; JS.toFixed (numberToString rt) q 4]) /\
  ratioRowTexts rt ("alpha_beta_ratio", SNum (123 # 100))
    = ["Alpha/Beta Ratio (Relaxation Index):"; "1.2300"].
Proof.
  split; [reflexivity|]. split; [|split; [reflexivity | reflexivity]].
  intros key N H. unfold ratioLabel, JS.get. now rewrite N, H.
Qed.

(** C7, at the failing key. A ratio keyed ["constructor"] is in no label
    dictionary, yet its row is not labelled with the raw key: the lookup
    yields the function inherited from [Object.prototype], and the row is
    labelled with the text of that function. *)
Theorem ratio_label_inherited_key (rt : Runtime) (y : Q) :
  JS.assoc "constructor" ratioLabels = None /\
  ratioLabel "constructor" = "function Object() { [native code] }:" /\
  ratioLabel "constructor" <> "constructor:" /\
  exists y' cs,
    writes (ratiosSection rt (withRatios [("constructor", SNum (3 # 2))]) y) y' cs /\
    textsAligned AlignLeft cs =
      ["Neurological Ratios"; "function Object() { [native code] }:"; "1.5000"].
Proof.
  split; [reflexivity|]. split; [reflexivity|]. split; [discriminate|].
  pose proof (ratiosSection_writes rt (withRatios [("constructor", SNum (3 # 2))]) y) as H.
  cbn [hasRatios withRatios ratios List.length Nat.ltb Nat.leb] in H.
  destruct H as (o & y' & cs & E & _ & W & T).
  injection E as <-. exists y', cs. split; [exact W|]. rewrite T. reflexivity.
Qed.

(** ** The primary-emotion badge *)

Lemma primaryEmotion_writes rt r y c :
  emotionColor r = JS.Val c ->
  exists cs,
    writes (primaryEmotion rt r y) (y + 5 + 7 + 26) cs /\
    fillColors cs = [c] /\
    textsAligned AlignCenter cs = [orString (emotion r) "Unknown"].
Proof.
  intro Hc. unfold primaryEmotion, addSectionTitle, titleColor. rewrite Hc.
  destruct c as [[cr cg] cb].
  eexists. split; [writes_all | split; reflexivity].
Qed.

(** C4, as the code has it. When [emotion] is absent or empty, the badge
    reads "Unknown" on the fallback colour. Any other string outside the
    label set (and outside the names inherited from [Object.prototype])
    is written on the badge as it is, on the fallback colour. *)
Theorem badge_of_unrecognized_emotion (rt : Runtime) (r : ReportRecord) (y : Q) :
  JS.assoc (propertyKey (emotion r)) EMOTION_COLORS = None ->
  JS.inb (propertyKey (emotion r)) JS.objectPrototypeKeys = false ->
  exists cs,
    writes (primaryEmotion rt r y) (y + 5 + 7 + 26) cs /\
    fillColors cs = [fallbackColor] /\
    textsAligned AlignCenter cs =
      [match emotion r with
       | None | Some "" => "Unknown"
       | Some s => s
       end].
Proof.
  intros N H.
  assert (emotionColor r = JS.Val fallbackColor) as Hc
    by (unfold emotionColor, JS.get; now rewrite N, H).
  destruct (primaryEmotion_writes rt r y _ Hc) as (cs & W & F & T).
  exists cs. split; [exact W | split; [exact F|]].
  rewrite T. unfold orString. now destruct (emotion r) as [[|a s]|].
Qed.

Lemma badge_of_unrecognized_emotion_witness :
  JS.assoc (propertyKey (emotion (withEmotion (Some "Fear")))) EMOTION_COLORS = None /\
  JS.inb (propertyKey (emotion (withEmotion (Some "Fear")))) JS.objectPrototypeKeys = false /\
  exists cs,
    writes (primaryEmotion (sampleRuntime 0 0) (withEmotion (Some "Fear")) 109)
           (109 + 5 + 7 + 26) cs /\
    fillColors cs = [fallbackColor] /\
    textsAligned AlignCenter cs = ["Fear"].
Proof.
  split; [reflexivity | split; [reflexivity|]].
  exact (badge_of_unrecognized_emotion (sampleRuntime 0 0)
           (withEmotion (Some "Fear")) 109 eq_refl eq_refl).
Defined.

(** C4 fails as stated: "Fear" is outside the label set, and the badge of
    a record with that emotion reads "Fear", not "Unknown". *)
Lemma badge_shows_unrecognized_label :
  JS.assoc "Fear" EMOTION_COLORS = None /\
  exists cs,
    writes (primaryEmotion (sampleRuntime 0 0) (withEmotion (Some "Fear")) 109)
           (109 + 5 + 7 + 26) cs /\
    textsAligned AlignCenter cs = ["Fear"] /\
    textsAligned AlignCenter cs <> ["Unknown"].
Proof.
  split; [reflexivity|].
  destruct (primaryEmotion_writes (sampleRuntime 0 0) (withEmotion (Some "Fear"))
              109 fallbackColor eq_refl) as (cs & W & _ & T).
  exists cs. split; [exact W|]. rewrite T. split; [reflexivity | discriminate].
Qed.

(** ** Dates *)

Lemma addHeader_writes rt r c :
  emotionColor r = JS.Val c ->
  exists cs,
    writes (addHeader rt r) 58 cs /\
    textsAligned AlignRight cs = [headerDate rt r].
Proof.
  intro Hc. unfold addHeader. fold (emotionColor r). rewrite Hc.
  destruct c as [[cr cg] cb].
  eexists. split; [writes_all | reflexivity].
Qed.

Lemma sessionInfo_writes rt r y :
  exists y' cs,
    writes (sessionInfo rt r y) y' cs /\
    textsAligned AlignLeft cs =
      [ "Session Information";
        "Report ID:"; orString (_id r) "N/A";
        "Dataset Name:"; orString (datasetName r) "Unknown";
        "Model Used:"; orString (modelUsed r) "N/A";
        "Processing Time:"; processingTimeText rt r;
        "Analysis Date:"; analysisDate rt r ].
Proof.
  unfold sessionInfo, addSectionTitle, addKVRow, titleColor.
  eexists _, _. split; [writes_all | reflexivity].
Qed.

(** C3, as the code has it. When [createdAt] is absent, the session-info
    row shows "N/A" for the analysis date and the file name carries the
    clock reading taken at save time; the timestamp of the header shows
    the current time, read when the header is drawn. *)
Theorem dates_without_createdAt (rt : Runtime) (r : ReportRecord) (y : Q) :
  createdAt r = None ->
  JS.inb (propertyKey (emotion r)) JS.objectPrototypeKeys = false ->
  (exists cs,
     writes (addHeader rt r) 58 cs /\
     textsAligned AlignRight cs = [toLocaleString rt (clockAtHeader rt)]) /\
  (exists y' cs,
     writes (sessionInfo rt r y) y' cs /\
     textsAligned AlignLeft cs =
       [ "Session Information";
         "Report ID:"; orString (_id r) "N/A";
         "Dataset Name:"; orString (datasetName r) "Unknown";
         "Model Used:"; orString (modelUsed r) "N/A";
         "Processing Time:"; processingTimeText rt r;
         "Analysis Date:"; "N/A" ]) /\
  filename rt r =
    "EmoHarmony_Report_" ++ orString (emotion r) "EEG" ++ "_"
      ++ JS.stringOfZ (clockAtSave rt) ++ ".pdf".
Proof.
  intros Hc Hk. split; [|split; [|reflexivity]].
  - destruct (inb_false_get EMOTION_COLORS _ fallbackColor Hk) as (c & E & _).
    destruct (addHeader_writes rt r c E) as (cs & W & T).
    exists cs. split; [exact W|]. rewrite T. unfold headerDate. now rewrite Hc.
  - destruct (sessionInfo_writes rt r y) as (y' & cs & W & T).
    exists y', cs. split; [exact W|]. rewrite T. unfold analysisDate.
    now rewrite Hc.
Qed.

Lemma dates_without_createdAt_witness :
  createdAt noFields = None /\
  JS.inb (propertyKey (emotion noFields)) JS.objectPrototypeKeys = false /\
  (exists cs,
     writes (addHeader (sampleRuntime 1000 2000) noFields) 58 cs /\
     textsAligned AlignRight cs = ["1000"]) /\
  filename (sampleRuntime 1000 2000) noFields = "EmoHarmony_Report_EEG_2000.pdf".
Proof.
  split; [reflexivity | split; [reflexivity|]].
  pose proof (dates_without_createdAt (sampleRuntime 1000 2000) noFields 58
                eq_refl eq_refl) as (H & _ & F).
  split; [exact H | exact F].
Defined.

(** C3 fails as stated: without [createdAt], the right-aligned texts of
    the exported document are the header timestamp and the page
    indicator, and the timestamp is the reading of the clock. *)
Lemma header_timestamp_follows_clock :
  createdAt noFields = None /\
  textsAligned AlignRight
    (map snd (drawnOf (exportResultAsPDF (sampleRuntime 1000 0) (VObject noFields))))
    = ["1000"; "Page 1 of 1"] /\
  textsAligned AlignRight
    (map snd (drawnOf (exportResultAsPDF (sampleRuntime 5000 0) (VObject noFields))))
    = ["5000"; "Page 1 of 1"].
Proof. repeat split; vm_compute; reflexivity. Qed.

(** C8 fails as stated: an interpretation of 70 lines takes the cursor
    past two page heights, into a third, and the exported document
    carries the one indicator "Page 1 of 1". *)
Lemma tall_content_single_stamp :
  (exists y, finalCursor (sampleRuntime 0 0) (withInterpretation (shortLines 70)) = Some y /\
             2 * pageHeight (sampleRuntime 0 0) < y /\
             y <= 3 * pageHeight (sampleRuntime 0 0)) /\
  pageIndicators
    (drawnOf (exportResultAsPDF (sampleRuntime 0 0)
                (VObject (withInterpretation (shortLines 70)))))
    = [(1%nat, "Page 1 of 1")] /\
  pageIndicators
    (drawnOf (exportResultAsPDF (sampleRuntime 0 0)
                (VObject (withInterpretation (shortLines 70)))))
    <> [(1%nat, "Page 1 of 3"); (2%nat, "Page 2 of 3"); (3%nat, "Page 3 of 3")].
Proof.
  split; [|split].
  - eexists. split; [vm_compute; reflexivity|]. split; vm_compute; congruence.
  - vm_compute. reflexivity.
  - vm_compute. discriminate.
Qed.

(** ** Worked values *)

Example toFixed_values :
  map (fun x => JS.toFixed (numberToString (sampleRuntime 0 0)) (fst x) (snd x))
      [(123 # 100, 4%nat); (0, 4%nat); (-(1 # 8), 1%nat); (5 # 2, 0%nat);
       (1234567 # 1000, 1%nat); (-(1 # 100000), 4%nat)]
    = ["1.2300"; "0.0000"; "-0.1"; "3"; "1234.6"; "-0.0000"].
Proof. vm_compute. reflexivity. Qed.

Example Math_round_values :
  map JS.Math_round [87 # 1; 5 # 2; -(5 # 2); 874 # 10] = [87; 3; -2; 87]%Z.
Proof. reflexivity. Qed.

Example pageLabel_2_of_3 : pageLabel 2 3 = "Page 2 of 3".
Proof. reflexivity. Qed.

(** Equal scores, written 1/2 and 5/10, keep the order of the map. *)
Example ranked_with_ties :
  map fst (rankedScores [("Sad", 1 # 2); ("Happy", 9 # 10); ("Calm", 5 # 10);
                         ("Angry", 1 # 2); ("Stress", 0)])
    = ["Happy"; "Sad"; "Calm"; "Angry"; "Stress"].
Proof. reflexivity. Qed.

Example barW_above_one : barWOf (14 # 10) 142 == 142.
Proof. reflexivity. Qed.

Example barW_negative_not_drawn :
  JS.gt (barWOf (-(1 # 10)) 142) 0 = false /\
  barWOf (-(1 # 10)) 142 == -(142 # 10).
Proof. split; reflexivity. Qed.

(** The rows of an export, read back: label, track and bar widths. *)
Example export_rows :
  let doc := map snd (drawnOf (exportResultAsPDF (sampleRuntime 0 0)
               (VObject (withScores [("Calm", 2 # 10); ("Happy", 14 # 10);
                                     ("Sad", -(1 # 10))])))) in
  filter (fun s => JS.inb s ["Calm"; "Happy"; "Sad"]) (textsAligned AlignLeft doc)
    = ["Happy"; "Calm"; "Sad"] /\
  length (filter (fun w => Qeq_bool w 142) (roundedRectWidths doc)) = 4%nat /\
  textsAligned AlignRight doc = ["0"; "100.0%"; "20.0%"; "-10.0%"; "Page 1 of 1"].
Proof. vm_compute. repeat split. Qed.

Example export_of_truthy_primitive :
  textsAligned AlignCenter
    (map snd (drawnOf (exportResultAsPDF (sampleRuntime 0 0) (VBoolean true))))
    = [ "⚠  This report is generated for research & educational purposes only and does not constitute medical diagnosis.";
        "Unknown"; "DELTA"; "0.0000"; "THETA"; "0.0000"; "ALPHA"; "0.0000";
        "BETA"; "0.0000"; "GAMMA"; "0.0000" ].
Proof. vm_compute. reflexivity. Qed.

Example tall_content_cursor :
  match finalCursor (sampleRuntime 0 0) (withInterpretation (shortLines 70)) with
  | Some y => y == 608
  | None => False
  end.
Proof. vm_compute. reflexivity. Qed.

(** ** When the export raises *)

Lemma throws_bind_l {A B} (m : M A) (k : A -> M B) :
  throws m -> throws (bind m k).
Proof. intros H d. destruct (H d) as (e & E). exists e. unfold bind. now rewrite E. Qed.

Lemma throws_bind_r {A B} (m : M A) (k : A -> M B) a cs :
  writes m a cs -> throws (k a) -> throws (bind m k).
Proof.
  intros W H d. destruct (H (pushAll d cs)) as (e & E).
  exists e. unfold bind. now rewrite W.
Qed.

Lemma throws_iterate n : throws (iterate (JS.Proto n)).
Proof. intro d. eexists. reflexivity. Qed.

Lemma inherited_not_label {A} (tbl : list (string * A)) key :
  Forall (fun kv => JS.inb (fst kv) JS.objectPrototypeKeys = false) tbl ->
  JS.inb key JS.objectPrototypeKeys = true ->
  JS.assoc key tbl = None.
Proof.
  intros F H. induction F as [|[k v] t Hk _ IH]; [reflexivity|].
  cbn [JS.assoc]. destruct (String.eqb_spec key k) as [->|_]; [|exact IH].
  cbn [fst] in Hk. congruence.
Qed.

Lemma inherited_found {A} (tbl : list (string * A)) key fb :
  Forall (fun kv => JS.inb (fst kv) JS.objectPrototypeKeys = false) tbl ->
  JS.inb key JS.objectPrototypeKeys = true ->
  JS.orElse (JS.get tbl key) fb = JS.Proto key.
Proof.
  intros F H. unfold JS.get. now rewrite (inherited_not_label tbl key F H), H.
Qed.

Lemma EMOTION_COLORS_labels :
  Forall (fun kv => JS.inb (fst kv) JS.objectPrototypeKeys = false) EMOTION_COLORS.
Proof. repeat constructor. Qed.

Lemma addHeader_throws rt r :
  JS.inb (propertyKey (emotion r)) JS.objectPrototypeKeys = true ->
  throws (addHeader rt r).
Proof.
  intro H. unfold addHeader.
  rewrite (inherited_found EMOTION_COLORS _ fallbackColor EMOTION_COLORS_labels H).
  apply throws_bind_l, throws_iterate.
Qed.

(** A row whose bar is not drawn never looks at its colour. *)
Lemma addEmotionScoreBar_ok rt emo score y maxW :
  rowRaises maxW (emo, score) = false ->
  exists row, writes (addEmotionScoreBar rt emo score y maxW) (y + 9) row.
Proof.
  unfold rowRaises. cbn [fst snd]. intro H. unfold addEmotionScoreBar.
  destruct (JS.gt (barWOf score maxW) 0) eqn:G.
  - rewrite andb_true_r in H.
    destruct (inb_false_get EMOTION_COLORS emo fallbackColor H) as (c & -> & _).
    destruct c as [[cr cg] cb]. eexists. writes_all.
  - eexists. writes_all.
Qed.

Lemma addEmotionScoreBar_throws rt emo score y maxW :
  rowRaises maxW (emo, score) = true ->
  throws (addEmotionScoreBar rt emo score y maxW).
Proof.
  unfold rowRaises. cbn [fst snd]. intro H.
  apply andb_true_iff in H as [Hk G]. unfold addEmotionScoreBar.
  rewrite G, (inherited_found EMOTION_COLORS _ fallbackColor EMOTION_COLORS_labels Hk).
  repeat (eapply throws_bind_r; [apply writes_emit|]).
  apply throws_bind_l, throws_bind_l, throws_iterate.
Qed.

Lemma scoreBars_ok rt maxW entries :
  existsb (rowRaises maxW) entries = false ->
  forall y, exists y' cs, writes (scoreBars rt entries y maxW) y' cs.
Proof.
  induction entries as [|[emo score] t IH]; intros H y.
  - exists y, []. apply writes_ret.
  - cbn [existsb] in H. apply orb_false_iff in H as [H1 H2].
    destruct (addEmotionScoreBar_ok rt emo score y maxW H1) as (row & W).
    destruct (IH H2 (y + 9)) as (y' & cs & W').
    exists y', (row ++ cs)%list. cbn [scoreBars].
    eapply writes_bind; [exact W | exact W'].
Qed.

Lemma scoreBars_throws rt maxW entries :
  existsb (rowRaises maxW) entries = true ->
  forall y, throws (scoreBars rt entries y maxW).
Proof.
  induction entries as [|[emo score] t IH]; intros H y; [discriminate|].
  cbn [existsb] in H. cbn [scoreBars].
  destruct (rowRaises maxW (emo, score)) eqn:R.
  - apply throws_bind_l. now apply addEmotionScoreBar_throws.
  - destruct (addEmotionScoreBar_ok rt emo score y maxW R) as (row & W).
    eapply throws_bind_r; [exact W | apply IH; exact H].
Qed.

Lemma existsb_rankedScores f scores :
  existsb f (rankedScores scores) = existsb f scores.
Proof.
  destruct (existsb f scores) eqn:E.
  - apply existsb_exists in E as (x & Hx & Fx). apply existsb_exists.
    exists x. split; [|exact Fx].
    eapply Permutation_in; [symmetry; apply sort_perm | exact Hx].
  - destruct (existsb f (rankedScores scores)) eqn:E'; [|reflexivity].
    apply existsb_exists in E' as (x & Hx & Fx).
    assert (existsb f scores = true) as C; [|congruence].
    apply existsb_exists. exists x. split; [|exact Fx].
    eapply Permutation_in; [apply sort_perm | exact Hx].
Qed.

Lemma inject_Z_S n : inject_Z (Z.of_nat (S n)) == inject_Z (Z.of_nat n) + 1.
Proof. rewrite Nat2Z.inj_succ. unfold Z.succ. now rewrite inject_Z_plus. Qed.

Lemma scoreBars_cursor rt maxW entries :
  existsb (rowRaises maxW) entries = false ->
  forall y, exists y' cs,
    writes (scoreBars rt entries y maxW) y' cs /\
    y' == y + 9 * inject_Z (Z.of_nat (List.length entries)).
Proof.
  induction entries as [|[emo score] t IH]; intros H y.
  - exists y, []. split; [apply writes_ret|]. cbn [List.length Z.of_nat]. ring.
  - cbn [existsb] in H. apply orb_false_iff in H as [H1 H2].
    destruct (addEmotionScoreBar_ok rt emo score y maxW H1) as (row & W).
    destruct (IH H2 (y + 9)) as (y' & cs & W' & E).
    exists y', (row ++ cs)%list. split.
    + cbn [scoreBars]. eapply writes_bind; [exact W | exact W'].
    + cbn [List.length]. rewrite E, inject_Z_S. ring.
Qed.

Lemma ratioRows_cursor rt entries : forall y,
  exists y' cs,
    writes (ratioRows rt entries y) y' cs /\
    y' == y + 7 * inject_Z (Z.of_nat (List.length entries)).
Proof.
  induction entries as [|[key val] t IH]; intro y.
  - exists y, []. split; [apply writes_ret|]. cbn [List.length Z.of_nat]. ring.
  - destruct (IH (y + 7)) as (y' & cs & W & E).
    eexists y', _. split.
    + cbn [ratioRows]. eapply writes_bind; [|exact W].
      unfold addKVRow. writes_all.
    + cbn [List.length]. rewrite E, inject_Z_S. ring.
Qed.

Lemma ratiosSection_cursor rt r y :
  exists y' cs,
    writes (ratiosSection rt r y) y' cs /\
    y' == y + (if hasRatios r
               then 16 + 7 * inject_Z (Z.of_nat
                      (List.length (match ratios r with Some o => o | None => [] end)))
               else 0).
Proof.
  unfold ratiosSection. destruct (hasRatios r).
  - destruct (ratioRows_cursor rt (match ratios r with Some o => o | None => [] end)
                (y + 5 + 7)) as (y' & cs & W & E).
    eexists _, _. split.
    + unfold addSectionTitle, titleColor.
      eapply writes_bind; [writes_all|].
      eapply writes_bind; [exact W | apply writes_ret].
    + rewrite E. ring.
  - exists y, []. split; [apply writes_ret | ring].
Qed.

Lemma bandPowersSection_writes rt r y :
  exists cs, writes (bandPowersSection rt r y) (y + 5 + 7 + 22 + 4) cs.
Proof.
  unfold bandPowersSection.
  destruct (addBandPowerTable_writes rt (bandPowers r) (y + 5 + 7)) as (cs & W & _).
  eexists. unfold addSectionTitle, titleColor.
  eapply writes_bind; [writes_all|].
  eapply writes_bind; [exact W | apply writes_ret].
Qed.

Lemma interpretationSection_writes rt r y maxW :
  exists cs,
    writes (interpretationSection rt r y maxW)
      (y + 5 + 7
       + inject_Z (Z.of_nat (List.length
           (splitTextToSize rt
              (orString (interpretation r) "No interpretation available.") maxW)))
         * (11 # 2)
       + 8) cs.
Proof.
  unfold interpretationSection, addSectionTitle, wrapText, titleColor.
  eexists. writes_all.
Qed.

Lemma sessionInfo_cursor rt r y :
  exists cs, writes (sessionInfo rt r y) (y + 5 + 7 + 7 + 7 + 7 + 7 + 7 + 4) cs.
Proof.
  unfold sessionInfo, addSectionTitle, addKVRow, titleColor.
  eexists. writes_all.
Qed.

Lemma length_rankedScores scores :
  List.length (rankedScores scores) = List.length scores.
Proof. apply Permutation_length, sort_perm. Qed.

Lemma raises_false rt r :
  raises rt r = false ->
  (exists c, emotionColor r = JS.Val c) /\
  existsb (rowRaises (pageWidth rt - 28 - 40))
          (rankedScores (match emotionScores r with Some o => o | None => [] end))
    = false.
Proof.
  unfold raises. intro H. apply orb_false_iff in H as [He Hs]. split.
  - destruct (inb_false_get EMOTION_COLORS _ fallbackColor He) as (c & E & _).
    now exists c.
  - now rewrite existsb_rankedScores.
Qed.

Lemma layoutSections_ok rt r :
  raises rt r = false ->
  exists y cs, writes (layoutSections rt r) y cs /\ y == layoutHeight rt r.
Proof.
  intro H. destruct (raises_false rt r H) as ((c & Hc) & Hs).
  destruct (addHeader_writes rt r c Hc) as (c1 & W1 & _).
  destruct (sessionInfo_cursor rt r 58) as (c2 & W2).
  destruct (primaryEmotion_writes rt r (58 + 5 + 7 + 7 + 7 + 7 + 7 + 7 + 4) c Hc)
    as (c3 & W3 & _).
  destruct (bandPowersSection_writes rt r
              (58 + 5 + 7 + 7 + 7 + 7 + 7 + 7 + 4 + 5 + 7 + 26)) as (c4 & W4).
  set (y4 := 58 + 5 + 7 + 7 + 7 + 7 + 7 + 7 + 4 + 5 + 7 + 26 + 5 + 7 + 22 + 4) in *.
  destruct (scoreBars_cursor rt _ _ Hs (y4 + 5 + 7)) as (y5 & c5 & W5 & E5).
  destruct (interpretationSection_writes rt r (y5 + 6) (pageWidth rt - 28))
    as (c6 & W6).
  match type of W6 with writes _ ?v _ =>
    destruct (ratiosSection_cursor rt r v) as (y7 & c7 & W7 & E7) end.
  eexists y7, _. split.
  - unfold layoutSections.
    eapply writes_bind; [exact W1|].
    eapply writes_bind; [exact W2|].
    eapply writes_bind; [exact W3|].
    eapply writes_bind; [exact W4|].
    eapply writes_bind.
    + unfold scoresSection, addSectionTitle, titleColor.
      eapply writes_bind; [writes_all|].
      eapply writes_bind; [exact W5 | apply writes_ret].
    + eapply writes_bind; [exact W6 | exact W7].
  - rewrite E7, E5, length_rankedScores. unfold layoutHeight, y4.
    destruct (hasRatios r); ring.
Qed.

Lemma layoutSections_throws rt r :
  raises rt r = true -> throws (layoutSections rt r).
Proof.
  unfold raises. intro H. unfold layoutSections.
  destruct (JS.inb (propertyKey (emotion r)) JS.objectPrototypeKeys) eqn:He.
  - apply throws_bind_l. now apply addHeader_throws.
  - cbn [orb] in H. rewrite <- existsb_rankedScores in H.
    destruct (inb_false_get EMOTION_COLORS _ fallbackColor He) as (c & Hc & _).
    destruct (addHeader_writes rt r c Hc) as (c1 & W1 & _).
    destruct (sessionInfo_cursor rt r 58) as (c2 & W2).
    destruct (primaryEmotion_writes rt r (58 + 5 + 7 + 7 + 7 + 7 + 7 + 7 + 4) c Hc)
      as (c3 & W3 & _).
    destruct (bandPowersSection_writes rt r
                (58 + 5 + 7 + 7 + 7 + 7 + 7 + 7 + 4 + 5 + 7 + 26)) as (c4 & W4).
    eapply throws_bind_r; [exact W1|].
    eapply throws_bind_r; [exact W2|].
    eapply throws_bind_r; [exact W3|].
    eapply throws_bind_r; [exact W4|].
    apply throws_bind_l. unfold scoresSection, addSectionTitle, titleColor.
    eapply throws_bind_r; [writes_all|].
    apply throws_bind_l. now apply scoreBars_throws.
Qed.

(** X1. The export raises exactly on the records whose emotion names a
    member inherited from [Object.prototype], or one of whose scores does
    with a bar to draw. On every other record it saves, under the
    generated name, a document of one page whose calls are all on that
    page. *)
Theorem export_raises_exactly (rt : Runtime) (r : ReportRecord) :
  if raises rt r
  then exists e, exportResultAsPDF rt (VObject r) = Raised e
  else exists d,
         exportResultAsPDF rt (VObject r) = Saved (filename rt r) d /\
         numberOfPages d = 1%nat /\
         Forall (fun pc => fst pc = 1%nat) (drawn d).
Proof.
  destruct (raises rt r) eqn:H; unfold exportResultAsPDF; cbn [truthy negb fields].
  - destruct (throws_bind_l _ (fun _ => footerPass rt) (layoutSections_throws rt r H)
                jsPDF_new) as (e & E).
    exists e. now rewrite E.
  - destruct (layoutSections_ok rt r H) as (y & cs & W & _).
    unfold bind. rewrite W.
    destruct (footerPass_run rt (pushAll jsPDF_new cs)) as (d' & F & D).
    rewrite F. exists d'. split; [reflexivity|].
    unfold footerPass, bind, getNumberOfPages in F.
    destruct (forEach_footer rt (numberOfPages (pushAll jsPDF_new cs))
                (seq 1 (numberOfPages (pushAll jsPDF_new cs)))
                (pushAll jsPDF_new cs)) as (d2 & F2 & P2 & _).
    rewrite F2 in F. injection F as <-. split; [exact P2|].
    rewrite D. cbn [pushAll jsPDF_new numberOfPages currentPage drawn app seq flat_map].
    apply Forall_app. split.
    + apply Forall_forall. intros pc Hin. apply in_map_iff in Hin as (c & <- & _).
      reflexivity.
    + rewrite app_nil_r. unfold footerStamp.
      apply Forall_forall. intros pc Hin. apply in_map_iff in Hin as (c & <- & _).
      reflexivity.
Qed.

(** X2. When the export does not raise, the cursor ends at 223, plus 9 for
    each score, 5.5 for each wrapped line of the interpretation, and, if
    there are ratios, 16 plus 7 for each of them. *)
Theorem layout_cursor (rt : Runtime) (r : ReportRecord) :
  raises rt r = false ->
  exists y, finalCursor rt r = Some y /\ y == layoutHeight rt r.
Proof.
  intro H. destruct (layoutSections_ok rt r H) as (y & cs & W & E).
  exists y. unfold finalCursor. rewrite W. now split.
Qed.

Lemma layout_cursor_witness :
  raises (sampleRuntime 0 0) (withInterpretation (shortLines 70)) = false /\
  exists y,
    finalCursor (sampleRuntime 0 0) (withInterpretation (shortLines 70)) = Some y /\
    y == layoutHeight (sampleRuntime 0 0) (withInterpretation (shortLines 70)).
Proof.
  split; [reflexivity|].
  exact (layout_cursor (sampleRuntime 0 0) (withInterpretation (shortLines 70)) eq_refl).
Defined.

(** [toFixed] depends on the number, not on the fraction that denotes
    it. *)
Lemma toFixed_comp toStr x y f :
  x == y ->
  Qle_bool (inject_Z (JS.pow10 21)) (Qabs y) = false ->
  JS.toFixed toStr x f = JS.toFixed toStr y f.
Proof.
  intros E B. unfold JS.toFixed. rewrite B.
  assert (Qle_bool (inject_Z (JS.pow10 21)) (Qabs x) = false) as ->.
  { destruct (Qle_bool (inject_Z (JS.pow10 21)) (Qabs x)) eqn:B'; [|reflexivity].
    apply Qle_bool_iff in B'. rewrite E in B'. apply Qle_bool_iff in B'. congruence. }
  assert (Qfloor (Qabs x * inject_Z (JS.pow10 f) + (1 # 2))
          = Qfloor (Qabs y * inject_Z (JS.pow10 f) + (1 # 2))) as ->
    by (apply Qfloor_comp; now rewrite E).
  destruct (Qlt_le_dec x 0), (Qlt_le_dec y 0); try reflexivity; lra.
Qed.

(** ** More on the probability rows *)

Lemma addEmotionScoreBar_label rt emo score y maxW :
  JS.inb emo JS.objectPrototypeKeys = false ->
  exists row,
    writes (addEmotionScoreBar rt emo score y maxW) (y + 9) row /\
    textsAligned AlignRight row
      = [JS.toFixed (numberToString rt) (pctOf score) 1 ++ "%"].
Proof.
  intro Hk.
  destruct (inb_false_get EMOTION_COLORS emo fallbackColor Hk) as (c & Hc & _).
  unfold addEmotionScoreBar. rewrite Hc. destruct c as [[cr cg] cb].
  destruct (JS.gt (barWOf score maxW) 0); eexists; (split; [writes_all | reflexivity]).
Qed.

(** X3. The percentage printed at the end of a row is capped at 100 but
    not at 0: from score 1 upwards it reads 100.0%, while a negative
    score prints a negative percentage (-0.1 prints -10.0%) beside a row
    without bar. *)
Theorem percent_label_capped_above_only (rt : Runtime) (emo : string) (score y maxW : Q) :
  JS.inb emo JS.objectPrototypeKeys = false ->
  exists row label,
    writes (addEmotionScoreBar rt emo score y maxW) (y + 9) row /\
    textsAligned AlignRight row = [label] /\
    (1 <= score -> label = "100.0%") /\
    (score == -(1 # 10) -> label = "-10.0%") /\
    (score < 0 ->
     Qle_bool (inject_Z (JS.pow10 21)) (Qabs (score * 100)) = false ->
     exists digits, label = "-" ++ digits).
Proof.
  intro Hk. destruct (addEmotionScoreBar_label rt emo score y maxW Hk) as (row & W & T).
  exists row. eexists. split; [exact W|]. split; [exact T|].
  unfold pctOf.
  destruct (Math_min_spec (score * 100) 100) as [[L E]|[L E]]; rewrite E.
  - split; [|split].
    + intro S.
      rewrite (toFixed_comp (numberToString rt) (score * 100) 100 1);
        [reflexivity | lra | reflexivity].
    + intro S.
      rewrite (toFixed_comp (numberToString rt) (score * 100) (-(10)) 1);
        [reflexivity | rewrite S; reflexivity | reflexivity].
    + intros N B. unfold JS.toFixed. rewrite B.
      destruct (Qlt_le_dec (score * 100) 0) as [_|P]; [|lra].
      cbn [Nat.eqb]. eexists. reflexivity.
  - split; [reflexivity|]. split; intros; lra.
Qed.

Lemma percent_label_capped_above_only_witness :
  JS.inb "Sad" JS.objectPrototypeKeys = false /\
  exists row,
    writes (addEmotionScoreBar (sampleRuntime 0 0) "Sad" (-(1 # 10)) 197 142)
           (197 + 9) row /\
    textsAligned AlignRight row = ["-10.0%"].
Proof.
  split; [reflexivity|].
  destruct (percent_label_capped_above_only (sampleRuntime 0 0) "Sad" (-(1 # 10))
              197 142 eq_refl) as (row & label & W & T & _ & N & _).
  exists row. split; [exact W|]. rewrite T, (N ltac:(reflexivity)). reflexivity.
Defined.

(** ** Colours of the header and of the badge *)

(** X4. The banner of the header, the badge and the confidence figure take
    their colour from the same lookup: the colour of the emotion when it
    is one of the five labels, the fallback otherwise. *)
Theorem banner_and_badge_share_colour (rt : Runtime) (r : ReportRecord) (y : Q) :
  JS.inb (propertyKey (emotion r)) JS.objectPrototypeKeys = false ->
  exists c hs bs,
    c = match JS.assoc (propertyKey (emotion r)) EMOTION_COLORS with
        | Some v => v
        | None => fallbackColor
        end /\
    writes (addHeader rt r) 58 hs /\
    writes (primaryEmotion rt r y) (y + 5 + 7 + 26) bs /\
    fillColors hs = [c; (240, 240, 245)%Z] /\
    fillColors bs = [c] /\
    textColors bs = [titleColor; (255, 255, 255)%Z; (60, 60, 80)%Z; c].
Proof.
  intro Hk.
  assert (emotionColor r =
          JS.Val match JS.assoc (propertyKey (emotion r)) EMOTION_COLORS with
                 | Some v => v
                 | None => fallbackColor
                 end) as Hc.
  { unfold emotionColor, JS.get.
    destruct (JS.assoc (propertyKey (emotion r)) EMOTION_COLORS); [reflexivity|].
    now rewrite Hk. }
  set (c := match JS.assoc (propertyKey (emotion r)) EMOTION_COLORS with
            | Some v => v
            | None => fallbackColor
            end) in *.
  exists c. unfold addHeader, primaryEmotion, addSectionTitle, titleColor.
  fold (emotionColor r). rewrite Hc. destruct c as [[cr cg] cb].
  eexists _, _. split; [reflexivity|].
  split; [writes_all|]. split; [writes_all|]. repeat split.
Qed.

Lemma banner_and_badge_share_colour_witness :
  JS.inb (propertyKey (emotion (withEmotion (Some "Calm")))) JS.objectPrototypeKeys
    = false /\
  exists c hs bs,
    c = (16, 185, 129)%Z /\
    writes (addHeader (sampleRuntime 0 0) (withEmotion (Some "Calm"))) 58 hs /\
    writes (primaryEmotion (sampleRuntime 0 0) (withEmotion (Some "Calm")) 109)
           (109 + 5 + 7 + 26) bs /\
    fillColors hs = [c; (240, 240, 245)%Z] /\
    fillColors bs = [c] /\
    textColors bs = [titleColor; (255, 255, 255)%Z; (60, 60, 80)%Z; c].
Proof.
  split; [reflexivity|].
  exact (banner_and_badge_share_colour (sampleRuntime 0 0)
           (withEmotion (Some "Calm")) 109 eq_refl).
Defined.

(** ** Geometry and values of the band table *)

(** X5. The five chips of the band table are 8 high and 2 narrower than a
    fifth of the width between the margins; they start at the left
    margin and follow each other at a pitch of that fifth, so that the
    fifth pitch ends on the right margin. *)
Theorem band_chips_tile_the_width (rt : Runtime)
    (bp : option (list (string * scalar))) (y : Q) :
  let cellW := (pageWidth rt - 28) / 5 in
  exists cs,
    writes (addBandPowerTable rt bp y) (y + 22) cs /\
    roundedRects cs =
      map (fun i => (14 + inject_Z (Z.of_nat i) * cellW, y, cellW - 2, 8)) (seq 0 5) /\
    14 + inject_Z (Z.of_nat 0) * cellW == 14 /\
    14 + inject_Z (Z.of_nat 5) * cellW == pageWidth rt - 14 /\
    (forall i, 14 + inject_Z (Z.of_nat (S i)) * cellW
               == 14 + inject_Z (Z.of_nat i) * cellW + (cellW - 2) + 2).
Proof.
  intro cellW.
  assert (exists cs, writes (addBandPowerTable rt bp y) (y + 22) cs /\
            roundedRects cs =
              map (fun i => (14 + inject_Z (Z.of_nat i) * cellW, y, cellW - 2, 8))
                  (seq 0 5)) as (cs & W & R).
  { unfold addBandPowerTable, bands. cbn [forEachIndexed List.length].
    unfold bandCell.
    cbn [JS.get JS.assoc String.eqb Ascii.eqb Bool.eqb JS.orElse bandColors].
    eexists. split; [writes_all | reflexivity]. }
  exists cs. split; [exact W|]. split; [exact R|].
  split; [cbn [Z.of_nat]; ring|]. split.
  - unfold cellW. cbn [Z.of_nat Pos.of_succ_nat Pos.succ]. field.
  - intro i. rewrite inject_Z_S. ring.
Qed.

(** X6. The table reads the five band keys and nothing else: two
    [bandPowers] objects that agree on them give the same table. *)
Theorem band_table_reads_five_keys (rt : Runtime)
    (o1 o2 : list (string * scalar)) (y : Q) (d : Doc) :
  (forall band, In band bands -> JS.assoc band o1 = JS.assoc band o2) ->
  addBandPowerTable rt (Some o1) y d = addBandPowerTable rt (Some o2) y d.
Proof.
  intro H.
  assert (forall band, In band bands ->
            bandValue (Some o1) band = bandValue (Some o2) band) as V.
  { intros band Hb. unfold bandValue. now rewrite (H band Hb). }
  unfold addBandPowerTable, bands in *. cbn [forEachIndexed List.length] in *.
  unfold bandCell.
  rewrite !(V "delta"), !(V "theta"), !(V "alpha"), !(V "beta"), !(V "gamma");
    simpl; auto 10.
Qed.

Lemma band_table_reads_five_keys_witness :
  (forall band, In band bands ->
     JS.assoc band [("alpha", SNum 3); ("noise", SStr "x")]
     = JS.assoc band [("alpha", SNum 3)]) /\
  addBandPowerTable (sampleRuntime 0 0)
    (Some [("alpha", SNum 3); ("noise", SStr "x")]) 159 jsPDF_new
  = addBandPowerTable (sampleRuntime 0 0) (Some [("alpha", SNum 3)]) 159 jsPDF_new.
Proof.
  assert (forall band, In band bands ->
            JS.assoc band [("alpha", SNum 3); ("noise", SStr "x")]
            = JS.assoc band [("alpha", SNum 3)]) as H.
  { intros band [<-|[<-|[<-|[<-|[<-|[]]]]]]; reflexivity. }
  split; [exact H|].
  exact (band_table_reads_five_keys (sampleRuntime 0 0) _ _ 159 jsPDF_new H).
Defined.

(** ** The file name *)

Lemma to_uint_not_Nil p : Pos.to_uint p <> Decimal.Nil.
Proof.
  intro E. pose proof (DecimalPos.Unsigned.of_to p) as O.
  rewrite E in O. discriminate.
Qed.

Lemma parseZ_stringOfZ z : parseZ (JS.stringOfZ z) = Some z.
Proof.
  unfold parseZ, JS.stringOfZ.
  rewrite NilZero.isi.
  - simpl. now rewrite DecimalZ.of_to.
  - destruct z as [|p|p]; simpl; try discriminate.
    intros [= E]. now apply (to_uint_not_Nil p).
  - destruct z as [|p|p]; simpl; try discriminate.
    intros [= E]. now apply (to_uint_not_Nil p).
Qed.

Lemma append_assoc_string (s t u : string) : (s ++ t) ++ u = s ++ (t ++ u).
Proof. induction s as [|c s IH]; simpl; [reflexivity | now rewrite IH]. Qed.

Lemma append_cancel_l (p s t : string) : p ++ s = p ++ t -> s = t.
Proof. induction p as [|c p IH]; simpl; [auto | intros [= E]; auto]. Qed.

Lemma length_append (s t : string) :
  String.length (s ++ t) = (String.length s + String.length t)%nat.
Proof. induction s as [|c s IH]; simpl; [reflexivity | now rewrite IH]. Qed.

Lemma append_cancel_r (s t u : string) : s ++ u = t ++ u -> s = t.
Proof.
  revert t. induction s as [|c s IH]; intros [|c' t] E; simpl in E.
  - reflexivity.
  - apply (f_equal String.length) in E. simpl in E. rewrite length_append in E. lia.
  - apply (f_equal String.length) in E. simpl in E. rewrite length_append in E. lia.
  - injection E as -> E. f_equal. now apply IH.
Qed.

(** X8. The file name carries the save-time clock in decimal, between the
    last underscore and the extension, so that it can be read back; two
    exports of the same record saved at different milliseconds get
    different names. *)
Theorem filename_determines_clock (rt rt' : Runtime) (r : ReportRecord) :
  (exists stem,
     stem = "EmoHarmony_Report_" ++ orString (emotion r) "EEG" ++ "_" /\
     filename rt r = stem ++ JS.stringOfZ (clockAtSave rt) ++ ".pdf" /\
     parseZ (JS.stringOfZ (clockAtSave rt)) = Some (clockAtSave rt)) /\
  (filename rt r = filename rt' r -> clockAtSave rt = clockAtSave rt').
Proof.
  split.
  - eexists. split; [reflexivity|]. split; [|apply parseZ_stringOfZ].
    unfold filename. now rewrite !append_assoc_string.
  - unfold filename. intro E.
    do 3 apply append_cancel_l in E. apply append_cancel_r in E.
    apply (f_equal parseZ) in E. rewrite !parseZ_stringOfZ in E. congruence.
Qed.

Lemma filename_determines_clock_witness :
  filename (sampleRuntime 0 1700000000000) noFields
    = filename (sampleRuntime 5 1700000000000) noFields /\
  clockAtSave (sampleRuntime 0 1700000000000)
    = clockAtSave (sampleRuntime 5 1700000000000).
Proof.
  split; [reflexivity|].
  exact (proj2 (filename_determines_clock (sampleRuntime 0 1700000000000)
                  (sampleRuntime 5 1700000000000) noFields) eq_refl).
Defined.

(** ** Arguments that are not records *)

(** X9. A truthy argument that is no object ([true], a number other than 0,
    a non-empty string) has none of the fields: the export saves, as
    "EmoHarmony_Report_EEG_<clock>.pdf", the report of the empty record,
    whose badge reads "Unknown" and whose band values are all 0.0000. *)
Theorem truthy_primitive_exports_empty_record (rt : Runtime) (v : value) :
  truthy v = true ->
  (forall r, v <> VObject r) ->
  exportResultAsPDF rt v = exportResultAsPDF rt (VObject noFields) /\
  exists d,
    exportResultAsPDF rt v
      = Saved ("EmoHarmony_Report_EEG_" ++ JS.stringOfZ (clockAtSave rt) ++ ".pdf") d /\
    textsAligned AlignCenter (map snd (drawn d))
      = [ "⚠  This report is generated for research & educational purposes only and does not constitute medical diagnosis.";
          "Unknown"; "DELTA"; "0.0000"; "THETA"; "0.0000"; "ALPHA"; "0.0000";
          "BETA"; "0.0000"; "GAMMA"; "0.0000" ].
Proof.
  intros T N.
  assert (exportResultAsPDF rt v = exportResultAsPDF rt (VObject noFields)) as E.
  { unfold exportResultAsPDF. rewrite T. cbn [negb truthy].
    destruct v; try reflexivity. now elim (N r). }
  split; [exact E|]. rewrite E. clear.
  assert (exists y cs, writes (layoutSections rt noFields) y cs /\
            textsAligned AlignCenter cs
            = [ "⚠  This report is generated for research & educational purposes only and does not constitute medical diagnosis.";
                "Unknown"; "DELTA"; "0.0000"; "THETA"; "0.0000"; "ALPHA"; "0.0000";
                "BETA"; "0.0000"; "GAMMA"; "0.0000" ]) as (y & cs & W & C).
  { unfold layoutSections, addHeader, sessionInfo, primaryEmotion, bandPowersSection,
      scoresSection, interpretationSection, ratiosSection, addBandPowerTable,
      addSectionTitle, addKVRow, wrapText, bands, titleColor, emotionColor.
    cbn [noFields emotion emotionScores ratios bandPowers hasRatios propertyKey
         rankedScores JS.sort fold_right scoreBars forEachIndexed List.length].
    unfold bandCell.
    cbn [JS.get JS.assoc String.eqb Ascii.eqb Bool.eqb JS.orElse bandColors
         EMOTION_COLORS JS.inb existsb JS.objectPrototypeKeys orb fallbackColor].
    eexists _, _. split; [writes_all | reflexivity]. }
  unfold exportResultAsPDF, bind. cbn [truthy negb fields]. rewrite W.
  destruct (footerPass_run rt (pushAll jsPDF_new cs)) as (d' & F & D).
  rewrite F. exists d'. split; [reflexivity|].
  rewrite D. cbn [pushAll jsPDF_new numberOfPages currentPage drawn app seq flat_map].
  rewrite app_nil_r, map_app, map_map. cbn [snd]. rewrite map_id.
  unfold textsAligned in *. rewrite flat_map_app, C. reflexivity.
Qed.

Lemma truthy_primitive_exports_empty_record_witness :
  truthy (VString "abc") = true /\
  (forall r, VString "abc" <> VObject r) /\
  exportResultAsPDF (sampleRuntime 0 7) (VString "abc")
    = exportResultAsPDF (sampleRuntime 0 7) (VObject noFields).
Proof.
  assert (forall r, VString "abc" <> VObject r) as N by discriminate.
  split; [reflexivity | split; [exact N|]].
  exact (proj1 (truthy_primitive_exports_empty_record (sampleRuntime 0 7) (VString "abc")
                  eq_refl N)).
Defined.

(** ** The ratio rows *)

(** X10. The ratio section is left out, cursor unchanged, exactly when
    [ratios] is absent or empty. Otherwise it writes its title and one
    row per entry, in the order of the map (the ratios are not ranked);
    a number is printed with four decimals, a string as it is, and the
    three known keys get their readable names. *)
Theorem ratio_section_rows (rt : Runtime) (r : ReportRecord) (y : Q) :
  (hasRatios r = false <-> ratios r = None \/ ratios r = Some []) /\
  (hasRatios r = false -> writes (ratiosSection rt r y) y []) /\
  (forall o, ratios r = Some o -> o <> [] ->
     exists y' cs,
       writes (ratiosSection rt r y) y' cs /\
       textsAligned AlignLeft cs
         = "Neurological Ratios" :: flat_map (ratioRowTexts rt) o /\
       y' == y + 16 + 7 * inject_Z (Z.of_nat (List.length o))) /\
  (forall key q, ratioRowTexts rt (key, SNum q)
                 = [ratioLabel key; JS.toFixed (numberToString rt) q 4]) /\
  (forall key s, ratioRowTexts rt (key, SStr s) = [ratioLabel key; s]) /\
  map ratioLabel ["alpha_beta_ratio"; "theta_alpha_ratio"; "fatigue_index"]
    = ["Alpha/Beta Ratio (Relaxation Index):";
       "Theta/Alpha Ratio (Mental Load Index):";
       "Fatigue Index ((α+θ)/β):"].
Proof.
  split; [|split; [|split; [|repeat split]]].
  - unfold hasRatios. destruct (ratios r) as [[|e o]|]; cbn; split; intro H;
      auto; try discriminate; destruct H; discriminate.
  - intro H. pose proof (ratiosSection_writes rt r y) as S. rewrite H in S. apply S.
  - intros o Ho Ne.
    pose proof (ratiosSection_writes rt r y) as S.
    destruct (ratiosSection_cursor rt r y) as (y' & cs & W & E).
    assert (hasRatios r = true) as H
      by (unfold hasRatios; rewrite Ho; now destruct o).
    rewrite H in S, E. destruct S as (o' & y'' & cs' & Ho' & _ & W' & T).
    rewrite Ho in Ho'. injection Ho' as <-.
    assert (y'' = y' /\ cs' = cs) as [-> ->].
    { pose proof (W jsPDF_new) as A. rewrite (W' jsPDF_new) in A.
      injection A as A1 A2. split; [exact A1|].
      unfold pushAll in A2. cbn in A2.
      apply (f_equal (map snd)) in A2. rewrite !map_map in A2. cbn in A2.
      now rewrite !map_id in A2. }
    exists y', cs. split; [exact W|]. split; [exact T|].
    rewrite E, Ho. ring.
Qed.

Lemma ratio_section_rows_witness :
  hasRatios (withRatios []) = false /\
  writes (ratiosSection (sampleRuntime 0 0) (withRatios []) 223) 223 [].
Proof.
  split; [reflexivity|].
  exact (proj1 (proj2 (ratio_section_rows (sampleRuntime 0 0) (withRatios []) 223))
           eq_refl).
Defined.

(** ** Ranking twice *)

Lemma sort_of_sorted l :
  StronglySorted scoreGe l -> JS.sort byScoreDescending l = l.
Proof.
  induction 1 as [|x t St IH Hx]; [reflexivity|].
  cbn [JS.sort fold_right]. fold (JS.sort byScoreDescending t). rewrite IH.
  destruct t as [|z t']; [reflexivity|]. cbn [JS.insert].
  apply Forall_inv in Hx. unfold scoreGe in Hx.
  assert (JS.gt (byScoreDescending x z) 0 = false) as ->; [|reflexivity].
  apply gt_false. unfold byScoreDescending. lra.
Qed.

(** X11. Ranking is idempotent, and it keeps a map that already lists its
    scores from the highest down as it is. *)
Theorem ranking_idempotent (scores : list (string * Q)) :
  rankedScores (rankedScores scores) = rankedScores scores /\
  (StronglySorted scoreGe scores -> rankedScores scores = scores).
Proof.
  unfold rankedScores. split.
  - apply sort_of_sorted, sort_sorted.
  - apply sort_of_sorted.
Qed.

Lemma ranking_idempotent_witness :
  StronglySorted scoreGe [("Happy", 9 # 10); ("Sad", 1 # 2); ("Calm", 5 # 10)] /\
  rankedScores [("Happy", 9 # 10); ("Sad", 1 # 2); ("Calm", 5 # 10)]
    = [("Happy", 9 # 10); ("Sad", 1 # 2); ("Calm", 5 # 10)].
Proof.
  assert (StronglySorted scoreGe
            [("Happy", 9 # 10); ("Sad", 1 # 2); ("Calm", 5 # 10)]) as H.
  { repeat constructor; unfold scoreGe, Qle; simpl; lia. }
  split; [exact H|].
  exact (proj2 (ranking_idempotent _) H).
Defined.

(** ** Dates of a record that has one *)

(** X12. With a non-empty [createdAt], the header timestamp and the
    analysis-date row both show that date as formatted for en-IN, and no
    clock is read for them; an empty [createdAt] counts as absent. *)
Theorem dates_with_createdAt (rt : Runtime) (r : ReportRecord) (y : Q) (c : string) :
  createdAt r = Some c ->
  JS.inb (propertyKey (emotion r)) JS.objectPrototypeKeys = false ->
  let shownInHeader := if nonEmpty c then dateToLocaleString_enIN rt c
                       else toLocaleString rt (clockAtHeader rt) in
  let shownInRow := if nonEmpty c then dateToLocaleString_enIN rt c else "N/A" in
  (exists cs,
     writes (addHeader rt r) 58 cs /\
     textsAligned AlignRight cs = [shownInHeader]) /\
  (exists y' cs,
     writes (sessionInfo rt r y) y' cs /\
     textsAligned AlignLeft cs =
       [ "Session Information";
         "Report ID:"; orString (_id r) "N/A";
         "Dataset Name:"; orString (datasetName r) "Unknown";
         "Model Used:"; orString (modelUsed r) "N/A";
         "Processing Time:"; processingTimeText rt r;
         "Analysis Date:"; shownInRow ]).
Proof.
  intros Hc Hk. cbv zeta. split.
  - destruct (inb_false_get EMOTION_COLORS _ fallbackColor Hk) as (col & E & _).
    destruct (addHeader_writes rt r col E) as (cs & W & T).
    exists cs. split; [exact W|]. rewrite T. unfold headerDate, formatDate.
    now rewrite Hc.
  - destruct (sessionInfo_writes rt r y) as (y' & cs & W & T).
    exists y', cs. split; [exact W|]. rewrite T. unfold analysisDate, formatDate.
    now rewrite Hc.
Qed.

Lemma dates_with_createdAt_witness :
  createdAt (withCreatedAt "2025-01-31T10:00:00Z") = Some "2025-01-31T10:00:00Z" /\
  JS.inb (propertyKey (emotion (withCreatedAt "2025-01-31T10:00:00Z")))
         JS.objectPrototypeKeys = false /\
  exists cs,
    writes (addHeader (sampleRuntime 1000 0) (withCreatedAt "2025-01-31T10:00:00Z"))
           58 cs /\
    textsAligned AlignRight cs = ["2025-01-31T10:00:00Z"].
Proof.
  split; [reflexivity | split; [reflexivity|]].
  exact (proj1 (dates_with_createdAt (sampleRuntime 1000 0)
                  (withCreatedAt "2025-01-31T10:00:00Z") 58
                  "2025-01-31T10:00:00Z" eq_refl eq_refl)).
Defined.

(** ** The confidence figure *)

Lemma Math_round_near x :
  inject_Z (JS.Math_round x) <= x + (1 # 2) /\
  x - (1 # 2) < inject_Z (JS.Math_round x).
Proof.
  unfold JS.Math_round.
  pose proof (Qfloor_le (x + (1 # 2))) as L.
  pose proof (Qlt_floor (x + (1 # 2))) as U.
  rewrite inject_Z_plus in U. change (inject_Z 1) with 1 in U.
  split; [exact L|]. lra.
Qed.

Lemma inject_Z_le a b : inject_Z a <= inject_Z b -> (a <= b)%Z.
Proof. unfold Qle. simpl. lia. Qed.

Lemma inject_Z_lt a b : inject_Z a < inject_Z b -> (a < b)%Z.
Proof. unfold Qlt. simpl. lia. Qed.

Lemma Math_round_inject z : JS.Math_round (inject_Z z) = z.
Proof.
  destruct (Math_round_near (inject_Z z)) as [L U].
  assert (inject_Z (JS.Math_round (inject_Z z)) < inject_Z (z + 1)) as A.
  { rewrite inject_Z_plus. change (inject_Z 1) with 1. lra. }
  assert (inject_Z (z + -1) < inject_Z (JS.Math_round (inject_Z z))) as B.
  { rewrite inject_Z_plus. change (inject_Z (-1)) with (-1). lra. }
  apply inject_Z_lt in A, B. lia.
Qed.

Lemma Math_round_mono x y : x <= y -> (JS.Math_round x <= JS.Math_round y)%Z.
Proof. intro H. unfold JS.Math_round. apply Qfloor_resp_le. lra. Qed.



(** ** The counter hook *)

Section CountUpFacts.

Import CountUp.

Lemma cube q : q ^ 3 == q * q * q.
Proof. simpl. ring. Qed.

Lemma square_nonneg x : 0 <= x * x.
Proof.
  destruct (Qlt_le_dec x 0) as [N|P].
  - assert (x * x == (- x) * (- x)) as -> by ring.
    apply Qmult_le_0_compat; lra.
  - now apply Qmult_le_0_compat.
Qed.

Lemma cube_le a b : a <= b -> a * a * a <= b * b * b.
Proof.
  intro H.
  assert (0 <= (b - a) * ((a + b * (1 # 2)) * (a + b * (1 # 2)) + (3 # 4) * (b * b))) as P.
  { apply Qmult_le_0_compat; [lra|].
    pose proof (square_nonneg (a + b * (1 # 2))).
    pose proof (square_nonneg b). lra. }
  assert (b * b * b - a * a * a
          == (b - a) * ((a + b * (1 # 2)) * (a + b * (1 # 2)) + (3 # 4) * (b * b)))
    as E by ring.
  lra.
Qed.

Lemma div_le_compat e1 e2 d : 0 < d -> e1 <= e2 -> e1 / d <= e2 / d.
Proof.
  intros Hd H. unfold Qdiv. apply Qmult_le_compat_r; [exact H|].
  apply Qlt_le_weak, Qinv_lt_0_compat, Hd.
Qed.

Lemma div_self d : 0 < d -> d / d == 1.
Proof. intro Hd. field. lra. Qed.

Lemma div_zero d : 0 / d == 0.
Proof. unfold Qdiv. ring. Qed.

Lemma Math_min_le_r a b : JS.Math_min a b <= b.
Proof. destruct (Math_min_spec a b) as [[H ->]|[H ->]]; lra. Qed.

Lemma Math_min_mono a a' b : a <= a' -> JS.Math_min a b <= JS.Math_min a' b.
Proof.
  intro H.
  destruct (Math_min_spec a b) as [[L ->]|[L ->]];
    destruct (Math_min_spec a' b) as [[L' ->]|[L' ->]]; lra.
Qed.

Lemma progress_facts duration elapsed :
  0 < duration ->
  progressOf duration elapsed <= 1 /\
  (duration <= elapsed -> progressOf duration elapsed == 1) /\
  (elapsed < duration -> progressOf duration elapsed < 1) /\
  (0 <= elapsed -> 0 <= progressOf duration elapsed).
Proof.
  intro Hd. unfold progressOf.
  pose proof (div_self duration Hd) as S.
  pose proof (div_zero duration) as Z.
  destruct (Math_min_spec (elapsed / duration) 1) as [[L ->]|[L ->]].
  - split; [exact L|]. split; [|split].
    + intro H. pose proof (div_le_compat _ _ _ Hd H). lra.
    + intro H. destruct (Qlt_le_dec (elapsed / duration) 1) as [?|G]; [assumption|].
      exfalso. assert (elapsed / duration == 1) as E by lra.
      assert (elapsed == duration) as E'.
      { assert (elapsed == elapsed / duration * duration) as -> by (field; lra).
        rewrite E. ring. }
      lra.
    + intro H. pose proof (div_le_compat _ _ _ Hd H). lra.
  - split; [lra|]. split; [reflexivity|]. split; [|lra].
    intro H. pose proof (div_le_compat elapsed duration duration Hd
                           (Qlt_le_weak _ _ H)). lra.
Qed.

Lemma progress_mono duration e1 e2 :
  0 < duration -> e1 <= e2 -> progressOf duration e1 <= progressOf duration e2.
Proof. intros Hd H. apply Math_min_mono, div_le_compat; assumption. Qed.

Lemma eased_facts p :
  (p == 1 -> easedOf p == 1) /\
  (0 <= p -> p <= 1 -> 0 <= easedOf p /\ easedOf p <= 1).
Proof.
  unfold easedOf. rewrite cube. split.
  - intros ->. ring.
  - intros H0 H1.
    pose proof (cube_le 0 (1 - p)) as A. pose proof (cube_le (1 - p) 1) as B.
    assert (0 * 0 * 0 == 0) as Z by ring. assert (1 * 1 * 1 == 1) as O by ring.
    split; [specialize (B ltac:(lra)) | specialize (A ltac:(lra))]; lra.
Qed.

Lemma eased_mono p q : p <= q -> easedOf p <= easedOf q.
Proof.
  intro H. unfold easedOf. rewrite !cube.
  pose proof (cube_le (1 - q) (1 - p) ltac:(lra)). lra.
Qed.

Lemma isInteger_inject q :
  isInteger q = true -> q == inject_Z (Qnum (Qred q)).
Proof.
  unfold isInteger. intro H. apply Z.eqb_eq in H.
  rewrite <- (Qred_correct q) at 1.
  destruct (Qred q) as [n d]. simpl in *. injection H as ->. reflexivity.
Qed.

Lemma tick_value toStr endNum duration startTime now :
  value (tick toStr endNum duration startTime now)
  = if isInteger endNum
    then Rounded (JS.Math_round
                    (easedOf (progressOf duration (now - startTime)) * endNum))
    else Fixed (JS.toFixed toStr
                  (easedOf (progressOf duration (now - startTime)) * endNum) 1).
Proof. reflexivity. Qed.

End CountUpFacts.

Section CountUpFrames.

Import CountUp.

Variable toStr : Q -> string.

(** X15. The animation goes on exactly as long as the elapsed time is below
    the duration. On the frame that ends it, the counter shows the end
    value itself: an integral end as that integer, any other end with
    one decimal. *)
Theorem countUp_last_frame (endNum duration startTime now : Q) :
  0 < duration ->
  (again (tick toStr endNum duration startTime now) = true
   <-> now - startTime < duration) /\
  (duration <= now - startTime ->
   (isInteger endNum = true ->
    exists z, value (tick toStr endNum duration startTime now) = Rounded z /\
              inject_Z z == endNum) /\
   (isInteger endNum = false ->
    Qle_bool (inject_Z (JS.pow10 21)) (Qabs endNum) = false ->
    value (tick toStr endNum duration startTime now)
      = Fixed (JS.toFixed toStr endNum 1))).
Proof.
  intro Hd.
  destruct (progress_facts duration (now - startTime) Hd) as (P1 & P2 & P3 & _).
  split.
  - change (again (tick toStr endNum duration startTime now))
      with (JS.gt 1 (progressOf duration (now - startTime))).
    rewrite gt_true. split; [|exact P3].
    intro L. destruct (Qlt_le_dec (now - startTime) duration) as [?|G]; [assumption|].
    specialize (P2 G). lra.
  - intro G. specialize (P2 G).
    assert (easedOf (progressOf duration (now - startTime)) * endNum == endNum) as E.
    { rewrite (proj1 (eased_facts _) P2). ring. }
    rewrite tick_value. split; intro I; rewrite I.
    + exists (Qnum (Qred endNum)). pose proof (isInteger_inject endNum I) as Z.
      split; [|now symmetry].
      f_equal. unfold JS.Math_round.
      rewrite (Qfloor_comp _ (inject_Z (Qnum (Qred endNum)) + (1 # 2))).
      * apply Math_round_inject.
      * rewrite E, <- Z. reflexivity.
    + intro B. f_equal. now apply toFixed_comp.
Qed.

End CountUpFrames.

Lemma countUp_last_frame_witness :
  0 < 1400 /\
  1400 <= 2500 - 1000 /\
  CountUp.isInteger 12 = true /\
  exists z,
    CountUp.value (CountUp.tick (numberToString (sampleRuntime 0 0)) 12 1400 1000 2500)
      = CountUp.Rounded z /\
    inject_Z z == 12.
Proof.
  assert (1400 <= 2500 - 1000) as H by (unfold Qle; simpl; lia).
  split; [reflexivity | split; [exact H | split; [reflexivity|]]].
  exact (proj1 (proj2 (countUp_last_frame (numberToString (sampleRuntime 0 0))
                         12 1400 1000 2500 eq_refl) H) eq_refl).
Defined.

Section CountUpRange.

Import CountUp.

Variable toStr : Q -> string.

(** X16. Counting up to an integral end that is not negative: every frame
    drawn at or after the start shows an integer between 0 and the end,
    and a later frame never shows less than an earlier one. *)
Theorem countUp_bounded_and_monotone (endNum duration startTime : Q) :
  0 < duration ->
  0 <= endNum ->
  isInteger endNum = true ->
  (forall now, exists z,
     value (tick toStr endNum duration startTime now) = Rounded z) /\
  (forall now z,
     startTime <= now ->
     value (tick toStr endNum duration startTime now) = Rounded z ->
     (0 <= z)%Z /\ inject_Z z <= endNum) /\
  (forall now1 now2 z1 z2,
     now1 <= now2 ->
     value (tick toStr endNum duration startTime now1) = Rounded z1 ->
     value (tick toStr endNum duration startTime now2) = Rounded z2 ->
     (z1 <= z2)%Z).
Proof.
  intros Hd He I. split; [|split].
  - intro now. rewrite tick_value, I. eexists. reflexivity.
  - intros now z Hn V. rewrite tick_value, I in V. injection V as <-.
    destruct (progress_facts duration (now - startTime) Hd) as (P1 & _ & _ & P0).
    specialize (P0 ltac:(lra)).
    destruct (proj2 (eased_facts _) P0 P1) as [E0 E1].
    set (e := easedOf (progressOf duration (now - startTime))) in *.
    pose proof (isInteger_inject endNum I) as Z.
    split.
    + change 0%Z with (JS.Math_round 0). apply Math_round_mono.
      apply Qmult_le_0_compat; assumption.
    + rewrite Z at 2. rewrite <- (Math_round_inject (Qnum (Qred endNum))).
      rewrite <- Zle_Qle. apply Math_round_mono. rewrite <- Z.
      assert (e * endNum <= 1 * endNum) by (apply Qmult_le_compat_r; assumption).
      lra.
  - intros now1 now2 z1 z2 Hn V1 V2. rewrite tick_value, I in V1, V2.
    injection V1 as <-. injection V2 as <-.
    apply Math_round_mono, Qmult_le_compat_r; [|exact He].
    apply eased_mono, progress_mono; [exact Hd | lra].
Qed.

End CountUpRange.

Lemma countUp_bounded_and_monotone_witness :
  0 < 1400 /\ 0 <= 12 /\ CountUp.isInteger 12 = true /\
  exists z,
    CountUp.value (CountUp.tick (numberToString (sampleRuntime 0 0)) 12 1400 1000 1700)
      = CountUp.Rounded z.
Proof.
  assert (0 <= 12) as H by (unfold Qle; simpl; lia).
  split; [reflexivity | split; [exact H | split; [reflexivity|]]].
  exact (proj1 (countUp_bounded_and_monotone (numberToString (sampleRuntime 0 0))
                  12 1400 1000 eq_refl H eq_refl) 1700).
Defined.

(** ** The observer of the counter *)

Lemma observe_started evs : forall h,
  CountUp.started h = true ->
  CountUp.observe h evs = (h, O).
Proof.
  induction evs as [|[i t] rest IH]; intros h S; [reflexivity|].
  cbn [CountUp.observe CountUp.onIntersect]. rewrite S, andb_false_r.
  now rewrite (IH h S).
Qed.

(** X17. Whatever entries the observer reports, the animation is requested at
    most once: once if some entry is intersecting, with the time of the
    first such entry as its start, and never otherwise. *)
Theorem countUp_starts_once (evs : list (bool * Q)) :
  match find fst evs with
  | Some (_, t) =>
      CountUp.observe CountUp.initial evs
      = ({| CountUp.started := true; CountUp.startTime := Some t |}, 1%nat)
  | None => CountUp.observe CountUp.initial evs = (CountUp.initial, O)
  end.
Proof.
  induction evs as [|[i t] rest IH]; [reflexivity|].
  cbn [find fst CountUp.observe CountUp.onIntersect]. destruct i.
  - cbn [CountUp.initial CountUp.started negb andb].
    now rewrite observe_started.
  - cbn [andb]. destruct (find fst rest) as [[i' t']|]; now rewrite IH.
Qed.

(** ** Band values, band by band *)

(** X7. Under each chip the table prints the value of that band: 0.0000 when
    the band is missing from [bandPowers] or is [null], a number with
    four decimals, a string as it is. *)
Theorem band_values_per_band (rt : Runtime) (o : list (string * scalar)) (y : Q) :
  (exists cs,
     writes (addBandPowerTable rt (Some o) y) (y + 22) cs /\
     textsAligned AlignCenter cs =
       flat_map (fun band => [toUpperCase band; bandText rt (bandValue (Some o) band)])
                bands) /\
  (forall band,
     JS.assoc band o = None \/ JS.assoc band o = Some SNull ->
     bandText rt (bandValue (Some o) band) = "0.0000") /\
  (forall band q,
     JS.assoc band o = Some (SNum q) ->
     bandText rt (bandValue (Some o) band) = JS.toFixed (numberToString rt) q 4) /\
  (forall band s,
     JS.assoc band o = Some (SStr s) ->
     bandText rt (bandValue (Some o) band) = s).
Proof.
  split; [apply addBandPowerTable_writes|].
  unfold bandValue, bandText.
  split; [|split].
  - intros band [-> | ->]; reflexivity.
  - intros band q ->. reflexivity.
  - intros band s ->. reflexivity.
Qed.

Lemma band_values_per_band_witness :
  (JS.assoc "theta" [("alpha", SNum (5 # 4)); ("beta", SNull)] = None \/
   JS.assoc "theta" [("alpha", SNum (5 # 4)); ("beta", SNull)] = Some SNull) /\
  bandText (sampleRuntime 0 0)
    (bandValue (Some [("alpha", SNum (5 # 4)); ("beta", SNull)]) "theta") = "0.0000".
Proof.
  assert (JS.assoc "theta" [("alpha", SNum (5 # 4)); ("beta", SNull)] = None \/
          JS.assoc "theta" [("alpha", SNum (5 # 4)); ("beta", SNull)] = Some SNull)
    as H by (left; reflexivity).
  split; [exact H|].
  exact (proj1 (proj2 (band_values_per_band (sampleRuntime 0 0)
                         [("alpha", SNum (5 # 4)); ("beta", SNull)] 159)) "theta" H).
Defined.

Lemma theme_lookup_off_prototype_witness :
  JS.inb "Fear" JS.objectPrototypeKeys = false /\
  JS.assoc "Fear" EMOTION_COLORS = None /\
  JS.orElse (JS.get EMOTION_COLORS "Fear") fallbackColor = JS.Val fallbackColor.
Proof.
  split; [reflexivity | split; [reflexivity|]].
  exact (proj1 (proj2 (proj2 (proj2 (proj2 theme_lookup_off_prototype))) "Fear" eq_refl)
           eq_refl).
Defined.

Example layoutHeight_tall :
  layoutHeight (sampleRuntime 0 0) (withInterpretation (shortLines 70)) == 608.
Proof. vm_compute. reflexivity. Qed.

Example band_values_mixed :
  map (fun band => bandText (sampleRuntime 0 0)
                     (bandValue (Some [("alpha", SNum (5 # 4)); ("beta", SNull);
                                       ("gamma", SStr "n/a")]) band)) bands
    = ["0.0000"; "0.0000"; "1.2500"; "0.0000"; "n/a"].
Proof. vm_compute. reflexivity. Qed.

Example countUp_frames :
  map (fun now => CountUp.tick (numberToString (sampleRuntime 0 0)) 12 1400 1000 now)
      [1000; 1350; 1700; 2400; 3000]
    = [ {| CountUp.value := CountUp.Rounded 0; CountUp.again := true |};
        {| CountUp.value := CountUp.Rounded 7; CountUp.again := true |};
        {| CountUp.value := CountUp.Rounded 11; CountUp.again := true |};
        {| CountUp.value := CountUp.Rounded 12; CountUp.again := false |};
        {| CountUp.value := CountUp.Rounded 12; CountUp.again := false |} ].
Proof. vm_compute. reflexivity. Qed.

Example countUp_decimal_end :
  CountUp.display (numberToString (sampleRuntime 0 0))
    (CountUp.value (CountUp.tick (numberToString (sampleRuntime 0 0))
                      (894 # 10) 1400 0 1400)) "%"
    = "89.4%".
Proof. vm_compute. reflexivity. Qed.

(** ** The probability section, in the section and in the export *)













